(** * tuga: the command-line client of the Tucluster service

    A shallow embedding of [tuga/main.py] and the properties of its
    commands.

    The commands of [main.py] are glue between three collaborators that
    the file does not define: the injected [TuclusterClient], the
    terminal (click's [secho] and [progressbar]) and the file system.
    They are modelled the way a test of the module records them: every
    method call on the client and every terminal action is appended to a
    trace of events, and the answers of the collaborators are given by
    oracles that may depend on everything that happened before.

    Python values are modelled as follows.
    - [str]: [string], each character standing for one code point below
      256; text outside that range is not modelled.
    - [None] or a [str]/[bool] option value of click: [option].
    - parsed JSON (what [requests]' [.json()] and the client's query
      methods return): the type [json]; numbers are integers, floats are
      not modelled; object keys are strings, kept in insertion order.
    - exceptions: a class name, the text [str(error)] gives, and whether
      the class derives from [Exception]. *)

Set Warnings "-register-all".
From Stdlib Require Import String Ascii List ZArith Bool Sorted Permutation.
From Stdlib Require Import DecimalString Lia.
Import ListNotations.
Open Scope string_scope.
Open Scope Z_scope.

(** ** Python values *)

Inductive json : Type :=
| JNull
| JBool (b : bool)
| JInt (z : Z)
| JStr (s : string)
| JList (l : list json)
| JDict (items : list (string * json)).

(** What can be handed to a method of the client: a value, or the bound
    method [progress.update] of the progress bar that is open. *)
Inductive arg : Type :=
| AVal (v : json)
| AProgressUpdate.

Definition of_str (s : string) : arg := AVal (JStr s).

Definition of_opt_str (o : option string) : arg :=
  match o with Some s => AVal (JStr s) | None => AVal JNull end.

Definition of_opt_bool (o : option bool) : arg :=
  match o with Some b => AVal (JBool b) | None => AVal JNull end.

(** Truth value of an optional string: [None] and [''] are false. *)
Definition truthy (o : option string) : bool :=
  match o with
  | None => false
  | Some s => negb (s =? "")%string
  end.

(** [str(x)] of an optional string, as [str.format] applies it. *)
Definition str_opt (o : option string) : string :=
  match o with Some s => s | None => "None" end.

(** ** Text helpers *)

(** The double quote, as a character and as a text. *)
Definition quote_char : ascii := ascii_of_N 34.
Definition DQ : string := String quote_char "".

Definition code (c : ascii) : N := N_of_ascii c.

Definition hex_digit (n : N) : ascii :=
  match n with
  | 0 => "0" | 1 => "1" | 2 => "2" | 3 => "3" | 4 => "4" | 5 => "5"
  | 6 => "6" | 7 => "7" | 8 => "8" | 9 => "9" | 10 => "a" | 11 => "b"
  | 12 => "c" | 13 => "d" | 14 => "e" | _ => "f"
  end%N%char.

(** The two lower-case hexadecimal digits of a code point below 256. *)
Definition hex2 (c : ascii) : string :=
  String (hex_digit (code c / 16)) (String (hex_digit (code c mod 16)) "").

Fixpoint concat_map (f : ascii -> string) (s : string) : string :=
  match s with
  | EmptyString => ""
  | String c t => f c ++ concat_map f t
  end.

Fixpoint contains_char (c : ascii) (s : string) : bool :=
  match s with
  | EmptyString => false
  | String d t => (d =? c)%char || contains_char c t
  end.

(** [int.__repr__]: decimal digits, with a minus sign when negative. *)
Definition repr_int (z : Z) : string := NilZero.string_of_int (Z.to_int z).

(** [os.path.basename] (posixpath): what follows the last slash. *)
Fixpoint basename (p : string) : string :=
  match p with
  | EmptyString => ""
  | String c t => if contains_char "/" p then
                    (if (c =? "/")%char && negb (contains_char "/" t) then t
                     else basename t)
                  else p
  end.

(** ** [str] and [repr] of a value, as [str.format] uses them *)

Definition repr_quote (s : string) : ascii :=
  if contains_char "'" s && negb (contains_char quote_char s) then quote_char
  else "'"%char.

(** Latin-1 code points that [repr] leaves as they are. *)
Definition printable_high (n : N) : bool :=
  ((161 <=? n) && (n <=? 172) || (174 <=? n) && (n <=? 255))%N.

Definition repr_char (q : ascii) (c : ascii) : string :=
  let n := code c in
  if (c =? q)%char || (c =? "\")%char then String "\" (String c "")
  else if (n =? 9)%N then "\t"
  else if (n =? 10)%N then "\n"
  else if (n =? 13)%N then "\r"
  else if (n <? 32)%N || (n =? 127)%N then "\x" ++ hex2 c
  else if (n <? 127)%N then String c ""
  else if printable_high n then String c ""
  else "\x" ++ hex2 c.

Definition repr_str (s : string) : string :=
  let q := repr_quote s in
  String q (concat_map (repr_char q) s) ++ String q "".

Fixpoint py_repr (v : json) : string :=
  match v with
  | JNull => "None"
  | JBool true => "True"
  | JBool false => "False"
  | JInt z => repr_int z
  | JStr s => repr_str s
  | JList l =>
      "[" ++ String.concat ", "
               ((fix each (l : list json) : list string :=
                   match l with
                   | [] => []
                   | x :: t => py_repr x :: each t
                   end) l) ++ "]"
  | JDict items =>
      "{" ++ String.concat ", "
               ((fix each (l : list (string * json)) : list string :=
                   match l with
                   | [] => []
                   | (k, x) :: t => (repr_str k ++ ": " ++ py_repr x) :: each t
                   end) items) ++ "}"
  end.

(** [str(v)]: a string is itself, everything else is its [repr]. *)
Definition py_str (v : json) : string :=
  match v with
  | JStr s => s
  | _ => py_repr v
  end.

(** ** [json.dumps]

    The encoder of the standard library, for the keyword arguments
    [main.py] passes.  [ensure_ascii] keeps its default (true). *)

Record dumps_options : Type := {
  sort_keys : bool;
  indent : option nat;
  item_separator : string;
  key_separator : string
}.

Definition escape_char (c : ascii) : string :=
  let n := code c in
  if (c =? quote_char)%char then String "\" DQ
  else if (c =? "\")%char then "\\"
  else if (n =? 10)%N then "\n"
  else if (n =? 13)%N then "\r"
  else if (n =? 9)%N then "\t"
  else if (n =? 12)%N then "\f"
  else if (n =? 8)%N then "\b"
  else if (32 <=? n)%N && (n <=? 126)%N then String c ""
  else "\u00" ++ hex2 c.

(** [py_encode_basestring_ascii] *)
Definition encode_string (s : string) : string :=
  DQ ++ concat_map escape_char s ++ DQ.

Fixpoint spaces (n : nat) : string :=
  match n with
  | O => ""
  | S m => String " " (spaces m)
  end.

Fixpoint repeat_string (s : string) (n : nat) : string :=
  match n with
  | O => ""
  | S m => s ++ repeat_string s m
  end.

(** [sorted(dct.items())]: a stable insertion sort on the keys, which
    are compared code point by code point. *)
Fixpoint insert_item {A : Type} (kv : string * A) (l : list (string * A))
  : list (string * A) :=
  match l with
  | [] => [kv]
  | kv' :: t => if String.leb (fst kv) (fst kv') then kv :: l
                else kv' :: insert_item kv t
  end.

Fixpoint sorted_items {A : Type} (l : list (string * A)) : list (string * A) :=
  match l with
  | [] => []
  | kv :: t => insert_item kv (sorted_items t)
  end.

Section Encoder.
Variable o : dumps_options.

(** [newline_indent] of the encoder at a nesting level, when [indent]
    is given. *)
Definition newline_indent (level : nat) : option string :=
  match indent o with
  | Some n => Some (String "010" (repeat_string (spaces n) level))
  | None => None
  end.

Definition opening (level : nat) : string :=
  match newline_indent (S level) with Some nl => nl | None => "" end.

Definition separator (level : nat) : string :=
  match newline_indent (S level) with
  | Some nl => item_separator o ++ nl
  | None => item_separator o
  end.

Definition closing (level : nat) : string :=
  match newline_indent level with Some nl => nl | None => "" end.

Definition encode_item (kv : string * string) : string :=
  encode_string (fst kv) ++ key_separator o ++ snd kv.

(** [_iterencode], joined.  The values of an object are encoded
    first and the encoded items are put in key order after it; the
    order of the keys does not depend on the values. *)
Fixpoint iterencode (level : nat) (v : json) : string :=
  match v with
  | JNull => "null"
  | JBool true => "true"
  | JBool false => "false"
  | JInt z => repr_int z
  | JStr s => encode_string s
  | JList [] => "[]"
  | JList l =>
      "[" ++ opening level
          ++ String.concat (separator level)
               ((fix each (l : list json) : list string :=
                   match l with
                   | [] => []
                   | x :: t => iterencode (S level) x :: each t
                   end) l)
          ++ closing level ++ "]"
  | JDict [] => "{}"
  | JDict items =>
      let encoded :=
        (fix each (l : list (string * json)) : list (string * string) :=
           match l with
           | [] => []
           | (k, x) :: t => (k, iterencode (S level) x) :: each t
           end) items in
      let ordered := if sort_keys o then sorted_items encoded else encoded in
      "{" ++ opening level
          ++ String.concat (separator level) (map encode_item ordered)
          ++ closing level ++ "}"
  end.

Definition json_dumps (v : json) : string := iterencode 0 v.
End Encoder.


(** The keyword arguments of the two [json.dumps] calls of [main.py]:
    [sort_keys=True, indent=4, separators=(',', ': ')]. *)
Definition dumps_kwargs : dumps_options :=
  {| sort_keys := true;
     indent := Some 4%nat;
     item_separator := ",";
     key_separator := ": " |}.

(** The serialisation as the specification words it, with the item
    separator [", "]; for comparison with [dumps_kwargs]. *)
Definition spec_dumps_kwargs : dumps_options :=
  {| sort_keys := true;
     indent := Some 4%nat;
     item_separator := ", ";
     key_separator := ": " |}.

(** The line feed. *)
Definition LF : string := String "010" "".

(** Keys in the order [sorted] leaves them. *)
Definition key_le {A : Type} (a b : string * A) : Prop :=
  String.leb (fst a) (fst b) = true.

(** ** Exceptions, results, events *)

Record exc : Type := {
  exc_class : string;
  exc_text : string;          (* str(error) *)
  exc_is_Exception : bool     (* caught by [except Exception] *)
}.

Inductive result (A : Type) : Type :=
| Ok (a : A)
| Raise (e : exc).
Arguments Ok {A} a.
Arguments Raise {A} e.

(** The keyword arguments of [click.secho] that [main.py] uses. *)
Record style : Type := {
  fg : option string;
  bg : option string;
  bold : option bool
}.

Definition plain : style := {| fg := None; bg := None; bold := None |}.
Definition fg_only (colour : string) : style :=
  {| fg := Some colour; bg := None; bold := None |}.
Definition alert : style :=
  {| fg := Some "white"; bg := Some "red"; bold := Some true |}.

Inductive event : Type :=
| ECall (method : string) (args : list arg) (kwargs : list (string * arg))
| ESetAttr (attr : string) (value : string)
| ESecho (text : string) (st : style)
| EBarOpen (length : Z) (label : string)
| EBarClose.

Definition trace : Type := list event.

(** A [requests] response, as far as [main.py] looks at it. *)
Record response : Type := {
  status_code : Z;
  json_body : result json      (* r.json() *)
}.

(** The injected client.  [lib.py] is not part of the sources: each
    method is an oracle that answers from the trace, whose last event is
    the call itself. *)
Record TuclusterClient : Type := {
  post_model_zip : trace -> result response;
  update_model : trace -> result unit;
  create_empty_model : trace -> result unit;
  add_model_file : trace -> result unit;
  create_run : trace -> result (list response);
  get_model : trace -> result json;
  get_models : trace -> result json;
  get_results : trace -> result json;
  file_ : trace -> result unit
}.

(** ** The monad of the commands: a trace and exceptions *)

Definition M (A : Type) : Type := trace -> result A * trace.

Definition ret {A : Type} (a : A) : M A := fun t => (Ok a, t).

Definition bind {A B : Type} (m : M A) (k : A -> M B) : M B :=
  fun t =>
    match m t with
    | (Ok a, t') => k a t'
    | (Raise e, t') => (Raise e, t')
    end.

Definition raise {A : Type} (e : exc) : M A := fun t => (Raise e, t).

Definition lift {A : Type} (r : result A) : M A := fun t => (r, t).

Definition emit (e : event) : M unit := fun t => (Ok tt, (t ++ [e])%list).

Declare Scope m_scope.
Delimit Scope m_scope with m.
Notation "x <- c1 ;; c2" := (bind c1 (fun x => c2))
  (at level 61, c1 at next level, right associativity) : m_scope.
Notation "c1 ;; c2" := (bind c1 (fun _ => c2))
  (at level 61, right associativity) : m_scope.
Open Scope m_scope.

(** A method call on the client: recorded, then answered. *)
Definition call {A : Type} (answer : trace -> result A) (method : string)
  (args : list arg) (kwargs : list (string * arg)) : M A :=
  fun t => let t' := (t ++ [ECall method args kwargs])%list in (answer t', t').

Definition secho (text : string) (st : style) : M unit := emit (ESecho text st).

(** [with click.progressbar(length=..., label=...) as progress: body];
    the bar is closed however the body ends. *)
Definition with_progressbar {A : Type} (length : Z) (label : string)
  (body : M A) : M A :=
  fun t =>
    let (r, t') := body (t ++ [EBarOpen length label])%list in
    (r, (t' ++ [EBarClose])%list).

(** [try: body / except Exception as error: handler error] *)
Definition try_except (body : M unit) (handler : exc -> M unit) : M unit :=
  fun t =>
    match body t with
    | (Raise e, t') =>
        if exc_is_Exception e then handler e t' else (Raise e, t')
    | (Ok a, t') => (Ok a, t')
    end.

(** [for x in xs: body x] *)
Fixpoint for_each {A : Type} (xs : list A) (body : A -> M unit) : M unit :=
  match xs with
  | [] => ret tt
  | x :: rest => body x ;; for_each rest body
  end.

(** ** Subscripting a parsed JSON value with a string key *)

Fixpoint lookup (key : string) (items : list (string * json)) : option json :=
  match items with
  | [] => None
  | (k, v) :: rest => if (k =? key)%string then Some v else lookup key rest
  end.

Definition KeyError (key : string) : exc :=
  {| exc_class := "KeyError"; exc_text := repr_str key;
     exc_is_Exception := true |}.

Definition TypeError (text : string) : exc :=
  {| exc_class := "TypeError"; exc_text := text; exc_is_Exception := true |}.

Definition getitem (d : json) (key : string) : M json :=
  match d with
  | JDict items =>
      match lookup key items with
      | Some v => ret v
      | None => raise (KeyError key)
      end
  | JList _ => raise (TypeError "list indices must be integers or slices, not str")
  | JStr _ => raise (TypeError "string indices must be integers, not 'str'")
  | JInt _ => raise (TypeError "'int' object is not subscriptable")
  | JBool _ => raise (TypeError "'bool' object is not subscriptable")
  | JNull => raise (TypeError "'NoneType' object is not subscriptable")
  end.

(** ** main.py *)

Section Commands.

(** [open(path, 'rb')] followed by [fobj.seek(0, 2)]: the size of the
    file, or the error of the operating system. *)
Variable file_size : trace -> string -> result Z.

Definition size_of (path : string) : M Z := fun t => (file_size t path, t).

(** [format_exception]: the decorator; [wrap] returns nothing. *)
Definition format_exception {P : Type} (func : P -> M unit) : P -> M unit :=
  fun args =>
    try_except (func args) (fun error => secho (exc_text error) alert).

Definition set_host (client : TuclusterClient) (host : string) : M unit :=
  emit (ESetAttr "host" host) ;;
  secho ("Host URL set to " ++ host) (fg_only "green").

Definition create (client : TuclusterClient) (name : string)
  (data description email : option string) : M unit :=
  (if truthy data then
     size <- size_of (str_opt data) ;;
     post_result <- with_progressbar size "Uploading data"
                      (call (post_model_zip client) "post_model_zip"
                            [of_opt_str data] [("progress_fn", AProgressUpdate)]) ;;
     secho "Upload successful" (fg_only "green") ;;
     secho "Updating metadata..." (fg_only "blue") ;;
     model_dict <- lift (json_body post_result) ;;
     served <- getitem model_dict "name" ;;
     call (update_model client) "update_model"
          [AVal served]
          [("new_name", of_str name);
           ("description", of_opt_str description);
           ("email", of_opt_str email)]
   else
     call (create_empty_model client) "create_empty_model"
          [of_str name; of_opt_str description; of_opt_str email] []) ;;
  secho ("Model " ++ name ++ " created!") (fg_only "green").

(** The body of the loop of [update]. *)
Definition upload_step (client : TuclusterClient) (path : string) : M unit :=
  let msg := "Uploading " ++ basename path ++ "..." in
  size <- size_of path ;;
  with_progressbar size msg
    (call (add_model_file client) "add_model_file"
          [of_str path] [("progress_fn", AProgressUpdate)]).

Definition update (client : TuclusterClient) (name : string)
  (files : list string) (description new_name email : option string) : M unit :=
  (if truthy description || truthy new_name || truthy email then
     secho "Updating metadata..." (fg_only "blue") ;;
     call (update_model client) "update_model"
          [of_str name; of_opt_str description; of_opt_str new_name;
           of_opt_str email] []
   else ret tt) ;;
  (match files with
   | [] => ret tt
   | _ => for_each files (upload_step client)
   end) ;;
  secho ("Model " ++ name ++ " updated!") (fg_only "green") ;;
  if truthy new_name then
    secho ("The model has been renamed to " ++ str_opt new_name
           ++ ". Use this name for future queries") (fg_only "blue")
  else ret tt.

(** The body of the loop of [_print_run_results]. *)
Definition print_run_result (r : response) : M unit :=
  if status_code r =? 201 then
    data <- lift (json_body r) ;;
    entry_point <- getitem data "entry_point" ;;
    secho ("Run for script " ++ py_str entry_point ++ " created.")
          (fg_only "green") ;;
    secho "To check the results, run: " plain ;;
    task_id <- getitem data "task_id" ;;
    secho ("tuga results --task " ++ py_str task_id) (fg_only "blue")
  else
    secho "Run creation failed" alert.

Definition _print_run_results (results : list response) : M unit :=
  for_each results print_run_result.

Definition anuga (client : TuclusterClient) (name : string)
  (script : option string) (notify watch : option bool) : M unit :=
  result_list <- call (create_run client) "create_run"
                   [of_str name; of_opt_str script; of_opt_bool notify;
                    of_opt_bool watch; of_str "anuga"] [] ;;
  _print_run_results result_list.

Definition tuflow (client : TuclusterClient) (name : string)
  (script : option string) (notify watch : option bool) : M unit :=
  result_list <- call (create_run client) "create_run"
                   [of_str name; of_opt_str script; of_opt_bool notify;
                    of_opt_bool watch; of_str "tuflow"] [] ;;
  _print_run_results result_list.

Definition model (client : TuclusterClient) (name : option string)
  (tree : option bool) : M unit :=
  result <- (if truthy name then
               call (get_model client) "get_model"
                    [of_opt_str name; of_opt_bool tree] []
             else
               call (get_models client) "get_models" [] []) ;;
  secho "Model Info:" plain ;;
  secho (json_dumps dumps_kwargs result) plain.

Definition results (client : TuclusterClient)
  (task model script download tree : option string) : M unit :=
  result <- call (get_results client) "get_results"
              [of_opt_str task; of_opt_str model; of_opt_str script] [] ;;
  secho "Result Info:" plain ;;
  secho (json_dumps dumps_kwargs result) plain.

Definition file (client : TuclusterClient) (fid : string) : M unit :=
  call (file_ client) "file" [of_str fid] [].

End Commands.

(** ** The click application

    What the decorators of [main.py] build when the module is imported,
    and how the group runs a sub-command. *)

(** The parameters click hands to a callback, per command ([anuga] and
    [tuflow] declare the same ones). *)
Inductive params : Type :=
| PSetHost (host : string)
| PCreate (name : string) (data description email : option string)
| PUpdate (name : string) (files : list string)
          (description new_name email : option string)
| PRun (name : string) (script : option string) (notify watch : option bool)
| PModel (name : option string) (tree : option bool)
| PResults (task model script download tree : option string)
| PFile (fid : string).

(** The click context: [ctx.obj]. *)
Record context : Type := { obj : TuclusterClient }.

Definition callback : Type := context -> params -> M unit.

Record Command : Type := {
  cmd_name : string;
  cmd_callback : callback
}.

(** [cli.commands]; a command added later hides one of the same name. *)
Definition Group : Type := list Command.

Definition add_command (g : Group) (c : Command) : Group := c :: g.

Fixpoint get_command (g : Group) (name : string) : option Command :=
  match g with
  | [] => None
  | c :: rest => if (cmd_name c =? name)%string then Some c
                 else get_command rest name
  end.

(** [@click.pass_obj]: the function receives [ctx.obj] first. *)
Definition pass_obj (f : TuclusterClient -> params -> M unit) : callback :=
  fun ctx p => f (obj ctx) p.

(** [@click.command()]: a command object around the function; no group
    learns of it. *)
Definition command (name : string) (f : callback) : Command :=
  {| cmd_name := name; cmd_callback := f |}.

(** [@cli.command()]: builds the command object, adds it to the group
    and returns it. *)
Definition group_command (g : Group) (name : string) (f : callback)
  : Group * Command :=
  let c := command name f in (add_command g c, c).

(** Calling a command object runs its callback.  Not modelled: the
    parsing of the command line that precedes it, and the exit of the
    process with which click ends a run that went well. *)
Definition invoke (c : Command) : callback := cmd_callback c.

Definition UsageError (text : string) : exc :=
  {| exc_class := "UsageError"; exc_text := text; exc_is_Exception := true |}.

(** What the module holds once it is imported: the group [cli] and the
    global names its decorated functions are bound to. *)
Record module : Type := {
  cli : Group;
  globals : list (string * callback)
}.

Section Application.

Variable file_size : trace -> string -> result Z.

(** The class [TuclusterClient] of [lib.py]: from a host, a client. *)
Variable new_client : string -> TuclusterClient.

Definition bad_call (fn : string) : exc :=
  TypeError (fn ++ "() got an unexpected keyword argument").

(** The functions under the decorators, on the parameters of click. *)
Definition set_host_fn (client : TuclusterClient) (p : params) : M unit :=
  match p with
  | PSetHost host => set_host client host
  | _ => raise (bad_call "set_host")
  end.

Definition create_fn (client : TuclusterClient) (p : params) : M unit :=
  match p with
  | PCreate name data description email =>
      create file_size client name data description email
  | _ => raise (bad_call "create")
  end.

Definition update_fn (client : TuclusterClient) (p : params) : M unit :=
  match p with
  | PUpdate name files description new_name email =>
      update file_size client name files description new_name email
  | _ => raise (bad_call "update")
  end.

Definition anuga_fn (client : TuclusterClient) (p : params) : M unit :=
  match p with
  | PRun name script notify watch => anuga client name script notify watch
  | _ => raise (bad_call "anuga")
  end.

Definition tuflow_fn (client : TuclusterClient) (p : params) : M unit :=
  match p with
  | PRun name script notify watch => tuflow client name script notify watch
  | _ => raise (bad_call "tuflow")
  end.

Definition model_fn (client : TuclusterClient) (p : params) : M unit :=
  match p with
  | PModel name tree => model client name tree
  | _ => raise (bad_call "model")
  end.

Definition results_fn (client : TuclusterClient) (p : params) : M unit :=
  match p with
  | PResults task model script download tree =>
      results client task model script download tree
  | _ => raise (bad_call "results")
  end.

Definition file_fn (client : TuclusterClient) (p : params) : M unit :=
  match p with
  | PFile fid => file client fid
  | _ => raise (bad_call "file")
  end.

(** A function under
    [@format_exception / @click.command() / ... / @click.pass_obj].
    Decorators apply bottom-up. *)
Definition def_command (name cmd : string)
  (f : TuclusterClient -> params -> M unit) (m : module) : module :=
  let c := command cmd (pass_obj f) in
  let wrap := fun ctx => format_exception (invoke c ctx) in
  {| cli := cli m; globals := (name, wrap) :: globals m |}.

(** A function under
    [@format_exception / @cli.command() / ... / @click.pass_obj].
    Decorators apply bottom-up: [cli.command()] registers the command
    it builds and hands that object to [format_exception], whose [wrap]
    is bound to the global name. *)
Definition def_cli_command (name cmd : string)
  (f : TuclusterClient -> params -> M unit) (m : module) : module :=
  let (g, c) := group_command (cli m) cmd (pass_obj f) in
  let wrap := fun ctx => format_exception (invoke c ctx) in
  {| cli := g; globals := (name, wrap) :: globals m |}.

(** The module after import, its definitions taken in source order. *)
Definition main_py : module :=
  let m := {| cli := []; globals := [] |} in
  let m := def_command "set_host" "set-host" set_host_fn m in
  let m := def_cli_command "create" "create" create_fn m in
  let m := def_cli_command "update" "update" update_fn m in
  let m := def_cli_command "anuga" "anuga" anuga_fn m in
  let m := def_cli_command "tuflow" "tuflow" tuflow_fn m in
  let m := def_cli_command "model" "model" model_fn m in
  let m := def_cli_command "results" "results" results_fn m in
  let m := def_cli_command "file" "file" file_fn m in
  m.

(** The callback of the group: [ctx.obj = TuclusterClient(host)]. *)
Definition cli_callback (host : string) (debug : bool) : context :=
  {| obj := new_client host |}.

(** The group run on a parsed command line: its own callback, then the
    callback of the sub-command registered under the given name. *)
Definition run_cli (host : string) (debug : bool) (sub : string)
  (p : params) : M unit :=
  let ctx := cli_callback host debug in
  match get_command (cli main_py) sub with
  | Some c => cmd_callback c ctx p
  | None => raise (UsageError ("No such command '" ++ sub ++ "'."))
  end.

End Application.

(** ** Reading a trace *)

Definition is_call (e : event) : bool :=
  match e with ECall _ _ _ => true | _ => false end.

Definition is_call_to (method : string) (e : event) : bool :=
  match e with ECall m _ _ => (m =? method)%string | _ => false end.

(** The method calls made on the client, in order. *)
Definition client_calls (t : trace) : list event := filter is_call t.

Definition calls_to (method : string) (t : trace) : list event :=
  filter (is_call_to method) t.

(** The calls of [create] and [update], as events. *)
Definition upload_zip (data : option string) : event :=
  ECall "post_model_zip" [of_opt_str data] [("progress_fn", AProgressUpdate)].

Definition patch_by_keyword (addressed : json)
  (new_name description email : option string) : event :=
  ECall "update_model" [AVal addressed]
        [("new_name", of_opt_str new_name);
         ("description", of_opt_str description);
         ("email", of_opt_str email)].

(** The test of [update] before its metadata patch. *)
Definition any_metadata (description new_name email : option string) : bool :=
  truthy description || truthy new_name || truthy email.

Fixpoint get_global (name : string) (g : list (string * callback))
  : option callback :=
  match g with
  | [] => None
  | (n, f) :: rest => if (n =? name)%string then Some f
                      else get_global name rest
  end.

Definition patch_by_position (name : string)
  (description new_name email : option string) : event :=
  ECall "update_model"
        [of_str name; of_opt_str description; of_opt_str new_name;
         of_opt_str email] [].

Definition upload_file (path : string) : event :=
  ECall "add_model_file" [of_str path] [("progress_fn", AProgressUpdate)].

(** The call of [anuga] and [tuflow], for an engine tag. *)
Definition run_call (name : string) (script : option string)
  (notify watch : option bool) (engine : string) : event :=
  ECall "create_run"
        [of_str name; of_opt_str script; of_opt_bool notify;
         of_opt_bool watch; of_str engine] [].

(** The call of [model] and the method that answers it. *)
Definition model_call (name : option string) (tree : option bool) : event :=
  if truthy name then ECall "get_model" [of_opt_str name; of_opt_bool tree] []
  else ECall "get_models" [] [].

Definition model_answer (client : TuclusterClient) (name : option string)
  : trace -> result json :=
  if truthy name then get_model client else get_models client.

Definition results_call (task model_name script : option string) : event :=
  ECall "get_results"
        [of_opt_str task; of_opt_str model_name; of_opt_str script] [].

(** ** How Python binds a call to the parameters of a method

    [sig] lists the parameters after [self].  Positional arguments take
    the parameters in order; a keyword argument takes the parameter of
    its name, which must exist and be free.  [None] stands for the
    [TypeError] of a call that does not fit. *)

Fixpoint bind_positional (sig : list string) (args : list arg) {struct args}
  : option (list (string * arg) * list string) :=
  match args, sig with
  | [], _ => Some ([], sig)
  | _ :: _, [] => None
  | a :: args', p :: sig' =>
      match bind_positional sig' args' with
      | Some (b, free) => Some ((p, a) :: b, free)
      | None => None
      end
  end.

Fixpoint remove_param (p : string) (free : list string) : option (list string) :=
  match free with
  | [] => None
  | q :: rest =>
      if (q =? p)%string then Some rest
      else match remove_param p rest with
           | Some rest' => Some (q :: rest')
           | None => None
           end
  end.

Fixpoint bind_keywords (free : list string) (kwargs : list (string * arg))
  : option (list (string * arg)) :=
  match kwargs with
  | [] => Some []
  | (p, a) :: rest =>
      match remove_param p free with
      | Some free' =>
          match bind_keywords free' rest with
          | Some b => Some ((p, a) :: b)
          | None => None
          end
      | None => None
      end
  end.

Definition bind_call (sig : list string) (e : event)
  : option (list (string * arg)) :=
  match e with
  | ECall _ args kwargs =>
      match bind_positional sig args with
      | Some (b, free) =>
          match bind_keywords free kwargs with
          | Some b' => Some (b ++ b')%list
          | None => None
          end
      | None => None
      end
  | _ => None
  end.

(** The argument a parameter receives in a call. *)
Fixpoint assoc (p : string) (b : list (string * arg)) : option arg :=
  match b with
  | [] => None
  | (q, a) :: rest => if (q =? p)%string then Some a else assoc p rest
  end.

Definition received (sig : list string) (e : event) (p : string) : option arg :=
  match bind_call sig e with
  | Some b => assoc p b
  | None => None
  end.

(** ** Collaborators for concrete runs *)

Definition created : response :=
  {| status_code := 201;
     json_body := Ok (JDict [("entry_point", JStr "run.py");
                             ("task_id", JStr "7f3a")]) |}.

Definition failed : response :=
  {| status_code := 500; json_body := Raise (TypeError "no body") |}.

(** A client whose server accepts everything. *)
Definition obliging_client : TuclusterClient :=
  {| post_model_zip := fun _ =>
       Ok {| status_code := 201;
             json_body := Ok (JDict [("name", JStr "tmp-0001")]) |};
     update_model := fun _ => Ok tt;
     create_empty_model := fun _ => Ok tt;
     add_model_file := fun _ => Ok tt;
     create_run := fun _ => Ok [created; failed];
     get_model := fun _ => Ok (JDict [("name", JStr "dam"); ("email", JNull)]);
     get_models := fun _ => Ok (JList [JStr "dam"; JStr "weir"]);
     get_results := fun _ => Ok (JDict [("b", JInt 2); ("a", JInt 1)]);
     file_ := fun _ => Ok tt |}.

Definition ConnectionError : exc :=
  {| exc_class := "ConnectionError"; exc_text := "Connection refused";
     exc_is_Exception := true |}.

(** A client whose server cannot be reached. *)
Definition refusing_client : TuclusterClient :=
  {| post_model_zip := fun _ => Raise ConnectionError;
     update_model := fun _ => Raise ConnectionError;
     create_empty_model := fun _ => Raise ConnectionError;
     add_model_file := fun _ => Raise ConnectionError;
     create_run := fun _ => Raise ConnectionError;
     get_model := fun _ => Raise ConnectionError;
     get_models := fun _ => Raise ConnectionError;
     get_results := fun _ => Raise ConnectionError;
     file_ := fun _ => Raise ConnectionError |}.

(** A file system on which every file can be read and has [n] bytes. *)
Definition files_of_size (n : Z) : trace -> string -> result Z :=
  fun _ _ => Ok n.

(** ** More ways to read a trace *)

Definition is_secho (e : event) : bool :=
  match e with ESecho _ _ => true | _ => false end.

(** The two methods that send a file. *)
Definition is_upload (method : string) : bool :=
  (method =? "post_model_zip")%string || (method =? "add_model_file")%string.

(** One step of a scan that follows the progress bars; [open] tells
    whether a bar is open.  The scan fails where a bar is opened inside
    another or closed without being open, where a file is sent outside a
    bar, and where anything else happens inside one. *)
Definition bar_step (open : bool) (e : event) : option bool :=
  match e with
  | EBarOpen _ _ => if open then None else Some true
  | EBarClose => if open then Some false else None
  | ECall method _ _ =>
      if is_upload method then (if open then Some true else None)
      else (if open then None else Some false)
  | ESecho _ _ => if open then None else Some false
  | ESetAttr _ _ => if open then None else Some false
  end.

Fixpoint bars (open : bool) (t : trace) : option bool :=
  match t with
  | [] => Some open
  | e :: rest =>
      match bar_step open e with
      | Some open' => bars open' rest
      | None => None
      end
  end.

(** The lines of the commands. *)
Definition created_line (name : string) : event :=
  ESecho ("Model " ++ name ++ " created!") (fg_only "green").

Definition updated_line (name : string) : event :=
  ESecho ("Model " ++ name ++ " updated!") (fg_only "green").

Definition renamed_line (new_name : option string) : event :=
  ESecho ("The model has been renamed to " ++ str_opt new_name
          ++ ". Use this name for future queries") (fg_only "blue").

Definition updating_line : event :=
  ESecho "Updating metadata..." (fg_only "blue").

Definition failure_line : event := ESecho "Run creation failed" alert.

(** What [update] adds to the trace before its loop. *)
Definition patch_events (name : string)
  (description new_name email : option string) : trace :=
  if any_metadata description new_name email
  then [updating_line; patch_by_position name description new_name email]
  else [].

(** What [update] adds to the trace after its loop. *)
Definition closing_lines (name : string) (new_name : option string) : trace :=
  updated_line name
  :: (if truthy new_name then [renamed_line new_name] else []).

(** An interrupt of the user: not an [Exception]. *)
Definition KeyboardInterrupt : exc :=
  {| exc_class := "KeyboardInterrupt"; exc_text := "";
     exc_is_Exception := false |}.

(** A client whose server takes the archive and refuses the patch. *)
Definition patchless_client : TuclusterClient :=
  {| post_model_zip := post_model_zip obliging_client;
     update_model := fun _ => Raise ConnectionError;
     create_empty_model := create_empty_model obliging_client;
     add_model_file := add_model_file obliging_client;
     create_run := create_run obliging_client;
     get_model := get_model obliging_client;
     get_models := get_models obliging_client;
     get_results := get_results obliging_client;
     file_ := file_ obliging_client |}.

(** A file system on which nothing can be read. *)
Definition unreadable : trace -> string -> result Z :=
  fun _ _ =>
    Raise {| exc_class := "PermissionError"; exc_text := "Permission denied";
             exc_is_Exception := true |}.

(** ** Objects that differ in the order of their keys *)

(** A Python dictionary holds a key once: no key is repeated in any
    object of the value. *)
Fixpoint no_repeat (keys : list string) : bool :=
  match keys with
  | [] => true
  | k :: rest => negb (existsb (String.eqb k) rest) && no_repeat rest
  end.

Fixpoint distinct_keys (v : json) : bool :=
  match v with
  | JList l =>
      (fix all (l : list json) : bool :=
         match l with
         | [] => true
         | x :: t => distinct_keys x && all t
         end) l
  | JDict items =>
      no_repeat (map fst items)
      && (fix all (l : list (string * json)) : bool :=
            match l with
            | [] => true
            | (_, x) :: t => distinct_keys x && all t
            end) items
  | _ => true
  end.

(** The same value, its objects built in another order of insertion,
    at any depth. *)
Inductive reordered : json -> json -> Prop :=
| reordered_same (v : json) : reordered v v
| reordered_list (l l' : list json) :
    Forall2 reordered l l' -> reordered (JList l) (JList l')
| reordered_dict (items moved items' : list (string * json)) :
    Forall2 (fun a b => fst a = fst b /\ reordered (snd a) (snd b))
            items moved ->
    Permutation moved items' ->
    reordered (JDict items) (JDict items').

(** ** Spaces at the end of a line *)

(** Whether a text has a space right before a line feed, or, when
    [at_end], as its last character. *)
Fixpoint trailing_space (at_end : bool) (s : string) : bool :=
  match s with
  | EmptyString => false
  | String c t =>
      ((c =? " ")%char
       && match t with
          | EmptyString => at_end
          | String d _ => (d =? "010")%char
          end)
      || trailing_space at_end t
  end.

(** Whether a text is followed by a line feed or by the end: it starts
    with a line feed, or is empty where the end follows. *)
Definition line_ends (s : string) (at_end : bool) : bool :=
  match s with
  | EmptyString => at_end
  | String d _ => (d =? "010")%char
  end.

(** A text without any line feed. *)
Fixpoint one_line (s : string) : bool :=
  match s with
  | EmptyString => true
  | String c t => negb (c =? "010")%char && one_line t
  end.

(** A text without any space. *)
Fixpoint spaceless (s : string) : bool :=
  match s with
  | EmptyString => true
  | String c t => negb (c =? " ")%char && spaceless t
  end.

(** A text of spaces. *)
Fixpoint blank (s : string) : bool :=
  match s with
  | EmptyString => true
  | String c t => (c =? " ")%char && blank t
  end.

(** A text that can stand where a value is written: it is not empty,
    does not start with a line feed, and has no space at the end of a
    line or at its own end. *)
Definition tidy (s : string) : Prop :=
  line_ends s true = false /\ trailing_space true s = false.

(** ** Characters that are safe on a terminal *)

(** A line feed or a printable ASCII character. *)
Definition safe_char (c : ascii) : bool :=
  (c =? "010")%char || ((32 <=? code c)%N && (code c <=? 126)%N).

Fixpoint safe (s : string) : bool :=
  match s with
  | EmptyString => true
  | String c t => safe_char c && safe t
  end.

(** * Properties *)

(** ** Traces *)

Lemma client_calls_app (t1 t2 : trace) :
  client_calls (t1 ++ t2)%list = (client_calls t1 ++ client_calls t2)%list.
Proof. apply filter_app. Qed.

Lemma calls_to_app (m : string) (t1 t2 : trace) :
  calls_to m (t1 ++ t2)%list = (calls_to m t1 ++ calls_to m t2)%list.
Proof. apply filter_app. Qed.

Ltac run :=
  unfold bind, ret, raise, lift, secho, emit, call, with_progressbar, size_of;
  simpl.

Ltac flat := repeat rewrite <- app_assoc; simpl.

(** ** [update] with nothing to do *)

(** C10: when no metadata option is given (or each is empty) and no
    file is given, [update] makes no call on the client and writes the
    line [Model <name> updated!], whatever the client and the file
    system would have answered. *)
Theorem update_without_options_only_prints
  (file_size : trace -> string -> result Z) (client : TuclusterClient)
  (name : string) (description new_name email : option string) (t0 : trace) :
  truthy description = false ->
  truthy new_name = false ->
  truthy email = false ->
  let run := update file_size client name [] description new_name email t0 in
  fst run = Ok tt
  /\ snd run = (t0 ++ [ESecho ("Model " ++ name ++ " updated!")
                              (fg_only "green")])%list
  /\ client_calls (snd run) = client_calls t0.
Proof.
  intros Hd Hn He. unfold update. rewrite Hd, Hn, He. run.
  repeat split. rewrite client_calls_app. simpl. apply app_nil_r.
Qed.

Lemma update_without_options_only_prints_run :
  let run := update (files_of_size 10) obliging_client
               "dam" [] None (Some "") None [] in
  fst run = Ok tt
  /\ snd run = [ESecho "Model dam updated!" (fg_only "green")]
  /\ client_calls (snd run) = [].
Proof.
  apply (update_without_options_only_prints
           (files_of_size 10) obliging_client "dam" None (Some "") None []);
    reflexivity.
Defined.

(** ** [results] *)

(** C6: [results] makes one call, [get_results(task, model, script)],
    and neither that call, nor what is written, nor the outcome depends
    on [--download] or [--tree]. *)
Theorem results_ignores_download_and_tree
  (client : TuclusterClient) (task model_name script : option string)
  (download tree download' tree' : option string) (t0 : trace) :
  results client task model_name script download tree t0
  = results client task model_name script download' tree' t0
  /\ exists new : trace,
       snd (results client task model_name script download tree t0)
       = (t0 ++ new)%list
       /\ client_calls new
          = [ECall "get_results"
                   [of_opt_str task; of_opt_str model_name; of_opt_str script]
                   []].
Proof.
  split; [reflexivity |].
  unfold results. run.
  destruct (get_results client _) as [j | e]; simpl.
  - eexists. split; [flat; reflexivity | reflexivity].
  - eexists. split; reflexivity.
Qed.

(** ** [_print_run_results] *)

Lemma for_each_cons {A : Type} (x : A) (xs : list A) (body : A -> M unit)
  (t : trace) :
  for_each (x :: xs) body t = (for_each [x] body ;; for_each xs body) t.
Proof.
  simpl. unfold bind, ret. destruct (body x t) as [[[] | e] t']; reflexivity.
Qed.

(** C7: the printer treats the results one after the other; a result
    whose status is not 201 gives the line [Run creation failed] and
    nothing else; a result of status 201 whose body holds an entry point
    and a task id gives three lines, the first with the entry point and
    the last the hint [tuga results --task <id>]. *)
Theorem print_run_results_per_result :
  (forall (r : response) (rs : list response) (t0 : trace),
      _print_run_results (r :: rs) t0
      = (_print_run_results [r] ;; _print_run_results rs) t0)
  /\ (forall (r : response) (t0 : trace),
         status_code r <> 201 ->
         _print_run_results [r] t0
         = (Ok tt, (t0 ++ [ESecho "Run creation failed" alert])%list))
  /\ (forall (r : response) (items : list (string * json))
             (entry_point task_id : json) (t0 : trace),
         status_code r = 201 ->
         json_body r = Ok (JDict items) ->
         lookup "entry_point" items = Some entry_point ->
         lookup "task_id" items = Some task_id ->
         _print_run_results [r] t0
         = (Ok tt,
            (t0 ++ [ESecho ("Run for script " ++ py_str entry_point
                            ++ " created.") (fg_only "green");
                    ESecho "To check the results, run: " plain;
                    ESecho ("tuga results --task " ++ py_str task_id)
                           (fg_only "blue")])%list)).
Proof.
  split; [| split].
  - intros r rs t0. apply for_each_cons.
  - intros r t0 H. unfold _print_run_results, print_run_result. simpl.
    destruct (Z.eqb_spec (status_code r) 201) as [E | _]; [contradiction |].
    reflexivity.
  - intros r items entry_point task_id t0 Hs Hb He Ht.
    unfold _print_run_results, print_run_result. simpl.
    rewrite Hs. simpl. run. rewrite Hb. simpl. rewrite He. simpl.
    rewrite Ht. simpl. flat. reflexivity.
Qed.

Lemma print_run_results_per_result_run :
  _print_run_results [created; failed] []
  = (Ok tt,
     [ESecho "Run for script run.py created." (fg_only "green");
      ESecho "To check the results, run: " plain;
      ESecho "tuga results --task 7f3a" (fg_only "blue");
      ESecho "Run creation failed" alert]).
Proof.
  destruct print_run_results_per_result as [Hcons [Hfail Hok]].
  rewrite Hcons. unfold bind.
  rewrite (Hok created _ (JStr "run.py") (JStr "7f3a") []
             eq_refl eq_refl eq_refl eq_refl).
  apply (Hfail failed). discriminate.
Defined.

(** What the printer does is settled by the results alone: it adds the
    same events to any trace, none of them a call on the client. *)
Lemma print_run_result_frame (r : response) :
  exists (res : result unit) (out : trace),
    client_calls out = []
    /\ forall t : trace, print_run_result r t = (res, (t ++ out)%list).
Proof.
  unfold print_run_result.
  destruct (status_code r =? 201).
  - run. destruct (json_body r) as [data | e].
    + destruct data as [| b | z | s | l | items];
        try (simpl; eexists; exists []; split; [reflexivity |];
             intros t; rewrite app_nil_r; reflexivity).
      simpl. destruct (lookup "entry_point" items) as [ep |].
      * simpl. destruct (lookup "task_id" items) as [tid |]; simpl.
        -- eexists; eexists; split; [| intros t; flat; reflexivity].
           reflexivity.
        -- eexists; eexists; split; [| intros t; flat; reflexivity].
           reflexivity.
      * simpl. eexists; exists []; split; [reflexivity |].
        intros t; rewrite app_nil_r; reflexivity.
    + eexists; exists []; split; [reflexivity |].
      intros t; rewrite app_nil_r; reflexivity.
  - run. eexists; eexists; split; [| intros t; reflexivity]. reflexivity.
Qed.

Lemma print_run_results_frame (rs : list response) :
  exists (res : result unit) (out : trace),
    client_calls out = []
    /\ forall t : trace, _print_run_results rs t = (res, (t ++ out)%list).
Proof.
  unfold _print_run_results.
  induction rs as [| r rs IH].
  - exists (Ok tt), []. split; [reflexivity |].
    intros t. simpl. unfold ret. now rewrite app_nil_r.
  - destruct (print_run_result_frame r) as (res1 & out1 & Hc1 & H1).
    destruct IH as (res2 & out2 & Hc2 & H2).
    destruct res1 as [[] | e].
    + exists res2, (out1 ++ out2)%list. split.
      * rewrite client_calls_app, Hc1, Hc2. reflexivity.
      * intros t. simpl. unfold bind. rewrite H1, H2. now rewrite app_assoc.
    + exists (Raise e), out1. split; [assumption |].
      intros t. simpl. unfold bind. now rewrite H1.
Qed.

(** ** [anuga] and [tuflow] *)

(** C8: [anuga] and [tuflow] each make one call, [create_run], with the
    same name, script, notify and watch and with the tag ['anuga'],
    respectively ['tuflow'], and nothing else on the client; when the
    client answers the two calls alike, the two commands end alike and
    write the same lines. *)
Theorem anuga_tuflow_differ_in_tag_only
  (client : TuclusterClient) (name : string) (script : option string)
  (notify watch : option bool) (t0 : trace) :
  exists (res res' : result unit) (out out' : trace),
    anuga client name script notify watch t0
    = (res, (t0 ++ run_call name script notify watch "anuga" :: out)%list)
    /\ tuflow client name script notify watch t0
       = (res', (t0 ++ run_call name script notify watch "tuflow" :: out')%list)
    /\ client_calls out = [] /\ client_calls out' = []
    /\ (create_run client (t0 ++ [run_call name script notify watch "anuga"])%list
        = create_run client (t0 ++ [run_call name script notify watch "tuflow"])%list
        -> res = res' /\ out = out').
Proof.
  unfold anuga, tuflow, run_call. run.
  set (ca := ECall "create_run" [of_str name; of_opt_str script;
               of_opt_bool notify; of_opt_bool watch; of_str "anuga"] []).
  set (ct := ECall "create_run" [of_str name; of_opt_str script;
               of_opt_bool notify; of_opt_bool watch; of_str "tuflow"] []).
  destruct (create_run client (t0 ++ [ca])%list) as [ra | ea] eqn:Ea;
    destruct (create_run client (t0 ++ [ct])%list) as [rt | et] eqn:Et.
  - destruct (print_run_results_frame ra) as (res & out & Hc & H).
    destruct (print_run_results_frame rt) as (res' & out' & Hc' & H').
    exists res, res', out, out'. rewrite H, H'. flat.
    split; [reflexivity |]. split; [reflexivity |].
    split; [assumption |]. split; [assumption |].
    intros E. injection E as ->.
    specialize (H []). specialize (H' []). rewrite H in H'. simpl in H'.
    injection H' as -> ->. now split.
  - destruct (print_run_results_frame ra) as (res & out & Hc & H).
    exists res, (Raise et), out, []. rewrite H. flat.
    split; [reflexivity |]. split; [reflexivity |].
    split; [assumption |]. split; [reflexivity |]. discriminate.
  - destruct (print_run_results_frame rt) as (res' & out' & Hc' & H').
    exists (Raise ea), res', [], out'. rewrite H'. flat.
    split; [reflexivity |]. split; [reflexivity |].
    split; [reflexivity |]. split; [assumption |]. discriminate.
  - exists (Raise ea), (Raise et), [], [].
    split; [reflexivity |]. split; [reflexivity |].
    split; [reflexivity |]. split; [reflexivity |].
    intros E. injection E as ->. now split.
Qed.

Lemma anuga_tuflow_differ_in_tag_only_run :
  anuga obliging_client "dam" (Some "run.py") None (Some true) []
  = (Ok tt,
     [run_call "dam" (Some "run.py") None (Some true) "anuga";
      ESecho "Run for script run.py created." (fg_only "green");
      ESecho "To check the results, run: " plain;
      ESecho "tuga results --task 7f3a" (fg_only "blue");
      ESecho "Run creation failed" alert])
  /\ tuflow obliging_client "dam" (Some "run.py") None (Some true) []
     = (Ok tt,
        [run_call "dam" (Some "run.py") None (Some true) "tuflow";
         ESecho "Run for script run.py created." (fg_only "green");
         ESecho "To check the results, run: " plain;
         ESecho "tuga results --task 7f3a" (fg_only "blue");
         ESecho "Run creation failed" alert]).
Proof.
  destruct (anuga_tuflow_differ_in_tag_only
              obliging_client "dam" (Some "run.py") None (Some true) [])
    as (res & res' & out & out' & Ha & Ht & _ & _ & Hsame).
  destruct (Hsame eq_refl) as [<- <-].
  split; [reflexivity |].
  rewrite Ht. vm_compute in Ha. injection Ha as <- <-. reflexivity.
Defined.

(** ** [json.dumps] as [model] and [results] call it *)

Lemma insert_item_perm {A : Type} (kv : string * A) (l : list (string * A)) :
  Permutation (kv :: l) (insert_item kv l).
Proof.
  induction l as [| a l IH]; simpl.
  - apply Permutation_refl.
  - destruct (String.leb (fst kv) (fst a)).
    + apply Permutation_refl.
    + eapply perm_trans; [apply perm_swap |]. now apply perm_skip.
Qed.

Lemma sorted_items_perm {A : Type} (l : list (string * A)) :
  Permutation l (sorted_items l).
Proof.
  induction l as [| a l IH]; simpl.
  - constructor.
  - eapply perm_trans; [apply perm_skip, IH | apply insert_item_perm].
Qed.

Lemma insert_item_sorted {A : Type} (kv : string * A) (l : list (string * A)) :
  Sorted key_le l -> Sorted key_le (insert_item kv l).
Proof.
  induction l as [| a l IH]; simpl; intros Hs.
  - repeat constructor.
  - destruct (String.leb (fst kv) (fst a)) eqn:E.
    + constructor; [assumption |]. constructor. exact E.
    + inversion Hs as [| ? ? Hl Hhd]; subst.
      constructor; [now apply IH |].
      destruct l as [| b l]; simpl.
      * constructor. unfold key_le.
        destruct (String.leb_total (fst kv) (fst a)) as [T | T]; congruence.
      * destruct (String.leb (fst kv) (fst b)).
        -- constructor. unfold key_le.
           destruct (String.leb_total (fst kv) (fst a)) as [T | T]; congruence.
        -- constructor. now inversion Hhd.
Qed.

Lemma sorted_items_sorted {A : Type} (l : list (string * A)) :
  Sorted key_le (sorted_items l).
Proof.
  induction l as [| a l IH]; simpl.
  - constructor.
  - now apply insert_item_sorted.
Qed.

(** An object that is not empty, at the top level: one item per line,
    four spaces in, in key order, a comma alone closing each line but
    the last. *)
Lemma dumps_object (items : list (string * json)) :
  items <> [] ->
  json_dumps dumps_kwargs (JDict items)
  = "{" ++ LF ++ "    "
        ++ String.concat ("," ++ LF ++ "    ")
             (map (fun kv => encode_string (fst kv) ++ ": " ++ snd kv)
                (sorted_items
                   (map (fun kv => (fst kv, iterencode dumps_kwargs 1 (snd kv)))
                      items)))
        ++ LF ++ "}".
Proof.
  intros Hne. destruct items as [| [k0 x0] items]; [contradiction |].
  unfold json_dumps.
  assert (E : forall l : list (string * json),
             (fix each (l : list (string * json)) : list (string * string) :=
                match l with
                | [] => []
                | (k, x) :: t => (k, iterencode dumps_kwargs 1 x) :: each t
                end) l
             = map (fun kv => (fst kv, iterencode dumps_kwargs 1 (snd kv))) l).
  { induction l as [| [k x] l IH]; simpl; [reflexivity | now rewrite IH]. }
  cbn [iterencode]. rewrite E. reflexivity.
Qed.

(** An array that is not empty, at the top level. *)
Lemma dumps_array (l : list json) :
  l <> [] ->
  json_dumps dumps_kwargs (JList l)
  = "[" ++ LF ++ "    "
        ++ String.concat ("," ++ LF ++ "    ")
             (map (iterencode dumps_kwargs 1) l)
        ++ LF ++ "]".
Proof.
  intros Hne. destruct l as [| x0 l]; [contradiction |].
  unfold json_dumps.
  assert (E : forall xs : list json,
             (fix each (l : list json) : list string :=
                match l with
                | [] => []
                | x :: t => iterencode dumps_kwargs 1 x :: each t
                end) xs
             = map (iterencode dumps_kwargs 1) xs).
  { induction xs as [| x xs IH]; simpl; [reflexivity | now rewrite IH]. }
  cbn [iterencode]. rewrite E. reflexivity.
Qed.

(** C5, as the specification words it, fails: [results] writes an object
    of two items with a comma alone between them, which is not the text
    the separators [", "] and [": "] give. *)
Lemma results_output_has_no_space_after_comma :
  let j := JDict [("b", JInt 2); ("a", JInt 1)] in
  results obliging_client None None None None None []
  = (Ok tt,
     [results_call None None None;
      ESecho "Result Info:" plain;
      ESecho ("{" ++ LF ++ "    " ++ DQ ++ "a" ++ DQ ++ ": 1," ++ LF
                  ++ "    " ++ DQ ++ "b" ++ DQ ++ ": 2" ++ LF ++ "}")
             plain])
  /\ json_dumps spec_dumps_kwargs j
     = "{" ++ LF ++ "    " ++ DQ ++ "a" ++ DQ ++ ": 1, " ++ LF
           ++ "    " ++ DQ ++ "b" ++ DQ ++ ": 2" ++ LF ++ "}"
  /\ json_dumps dumps_kwargs j <> json_dumps spec_dumps_kwargs j.
Proof.
  split; [reflexivity |]. split; [reflexivity |]. discriminate.
Qed.

(** C5, amended: what [model] and [results] write after their heading is
    the result of the client serialised by [json.dumps] with sorted
    keys, an indentation of four spaces, the item separator [","] and
    the key separator [": "]: in an object, one item per line in key
    order, each line but the last closed by a comma alone. *)
Theorem json_output_sorted_indented
  (client : TuclusterClient) (t0 : trace) (j : json) :
  (forall (name : option string) (tree : option bool),
      model_answer client name (t0 ++ [model_call name tree])%list = Ok j ->
      model client name tree t0
      = (Ok tt,
         (t0 ++ [model_call name tree;
                 ESecho "Model Info:" plain;
                 ESecho (json_dumps dumps_kwargs j) plain])%list))
  /\ (forall task model_name script download tree : option string,
         get_results client (t0 ++ [results_call task model_name script])%list
         = Ok j ->
         results client task model_name script download tree t0
         = (Ok tt,
            (t0 ++ [results_call task model_name script;
                    ESecho "Result Info:" plain;
                    ESecho (json_dumps dumps_kwargs j) plain])%list))
  /\ dumps_kwargs
     = {| sort_keys := true; indent := Some 4%nat;
          item_separator := ","; key_separator := ": " |}
  /\ (forall items : list (string * json),
         j = JDict items -> items <> [] ->
         exists ordered : list (string * string),
           Permutation
             (map (fun kv => (fst kv, iterencode dumps_kwargs 1 (snd kv))) items)
             ordered
           /\ Sorted key_le ordered
           /\ json_dumps dumps_kwargs j
              = "{" ++ LF ++ "    "
                    ++ String.concat ("," ++ LF ++ "    ")
                         (map (fun kv => encode_string (fst kv) ++ ": " ++ snd kv)
                            ordered)
                    ++ LF ++ "}").
Proof.
  split; [| split; [| split; [reflexivity |]]].
  - intros name tree H. unfold model, model_answer, model_call in *. run.
    destruct (truthy name); rewrite H; flat; reflexivity.
  - intros task model_name script download tree H.
    unfold results, results_call in *. run. rewrite H. flat. reflexivity.
  - intros items -> Hne. eexists. split; [apply sorted_items_perm |].
    split; [apply sorted_items_sorted |]. now apply dumps_object.
Qed.

Lemma json_output_sorted_indented_run :
  model obliging_client (Some "dam") (Some true) []
  = (Ok tt,
     [ECall "get_model" [AVal (JStr "dam"); AVal (JBool true)] [];
      ESecho "Model Info:" plain;
      ESecho ("{" ++ LF ++ "    " ++ DQ ++ "email" ++ DQ ++ ": null," ++ LF
                  ++ "    " ++ DQ ++ "name" ++ DQ ++ ": " ++ DQ ++ "dam" ++ DQ
                  ++ LF ++ "}") plain]).
Proof.
  destruct (json_output_sorted_indented obliging_client []
              (JDict [("name", JStr "dam"); ("email", JNull)]))
    as [Hmodel _].
  exact (Hmodel (Some "dam") (Some true) eq_refl).
Defined.

(** ** The loop of [update] *)

Lemma upload_step_trace (file_size : trace -> string -> result Z)
  (client : TuclusterClient) (path : string) (t : trace) :
  exists (res : result unit) (new : trace),
    upload_step file_size client path t = (res, (t ++ new)%list)
    /\ (client_calls new = [] \/ client_calls new = [upload_file path])
    /\ (res = Ok tt -> client_calls new = [upload_file path]).
Proof.
  unfold upload_step. run.
  destruct (file_size t path) as [size | e].
  - destruct (add_model_file client _) as [[] | e]; eexists; eexists;
      (split; [flat; reflexivity |]); split; try (right; reflexivity);
      reflexivity.
  - exists (Raise e), []. rewrite app_nil_r. split; [reflexivity |].
    split; [left; reflexivity | discriminate].
Qed.

Lemma upload_loop_trace (file_size : trace -> string -> result Z)
  (client : TuclusterClient) (files : list string) :
  forall t : trace,
  exists (res : result unit) (new : trace) (k : nat),
    for_each files (upload_step file_size client) t = (res, (t ++ new)%list)
    /\ client_calls new = map upload_file (firstn k files)
    /\ (res = Ok tt -> firstn k files = files).
Proof.
  induction files as [| path files IH]; intros t.
  - exists (Ok tt), [], 0%nat. simpl. unfold ret. rewrite app_nil_r.
    repeat split.
  - destruct (upload_step_trace file_size client path t)
      as (res1 & new1 & H1 & Hc1 & Hok1).
    simpl. unfold bind. rewrite H1. destruct res1 as [[] | e].
    + destruct (IH (t ++ new1)%list) as (res2 & new2 & k & H2 & Hc2 & Hok2).
      exists res2, (new1 ++ new2)%list, (S k). rewrite H2, app_assoc.
      split; [reflexivity |]. split.
      * rewrite client_calls_app, (Hok1 eq_refl), Hc2. reflexivity.
      * intros E. simpl. now rewrite (Hok2 E).
    + destruct Hc1 as [Hc1 | Hc1].
      * exists (Raise e), new1, 0%nat. split; [reflexivity |].
        split; [assumption | discriminate].
      * exists (Raise e), new1, 1%nat. split; [reflexivity |].
        split; [assumption | discriminate].
Qed.

(** ** The calls of [update] *)

(** Every run of [update]: the metadata patch when an option asks for
    it, then uploads for the first files, for all of them when the
    command ends well. *)
Lemma update_trace (file_size : trace -> string -> result Z)
  (client : TuclusterClient) (name : string) (files : list string)
  (description new_name email : option string) (t0 : trace) :
  exists (res : result unit) (new : trace) (k : nat),
    update file_size client name files description new_name email t0
    = (res, (t0 ++ new)%list)
    /\ client_calls new
       = ((if any_metadata description new_name email
           then [patch_by_position name description new_name email]
           else []) ++ map upload_file (firstn k files))%list
    /\ (res = Ok tt -> firstn k files = files).
Proof.
  unfold update, any_metadata.
  assert (Hloop : forall t : trace,
             exists (res : result unit) (new : trace) (k : nat),
               match files with
               | [] => ret tt
               | _ => for_each files (upload_step file_size client)
               end t = (res, (t ++ new)%list)
               /\ client_calls new = map upload_file (firstn k files)
               /\ (res = Ok tt -> firstn k files = files)).
  { intros t. destruct files as [| path files].
    - exists (Ok tt), [], 0%nat. unfold ret. rewrite app_nil_r.
      repeat split.
    - apply upload_loop_trace. }
  assert (Htail : forall t : trace,
             exists out : trace,
               (secho ("Model " ++ name ++ " updated!") (fg_only "green") ;;
                if truthy new_name then
                  secho ("The model has been renamed to " ++ str_opt new_name
                         ++ ". Use this name for future queries")
                        (fg_only "blue")
                else ret tt) t = (Ok tt, (t ++ out)%list)
               /\ client_calls out = []).
  { intros t. run. destruct (truthy new_name); eexists;
      (split; [flat; reflexivity | reflexivity]). }
  destruct (truthy description || truthy new_name || truthy email).
  - unfold bind at 1. unfold bind at 1. unfold secho at 1. unfold emit at 1.
    unfold call at 1. cbv beta iota zeta.
    set (t1 := ((t0 ++ [ESecho "Updating metadata..." (fg_only "blue")]) ++
                [ECall "update_model"
                   [of_str name; of_opt_str description; of_opt_str new_name;
                    of_opt_str email] []])%list).
    destruct (update_model client t1) as [[] | e].
    + unfold bind at 1.
      destruct (Hloop t1) as (res & new & k & H & Hc & Hok). rewrite H.
      destruct res as [[] | e].
      * destruct (Htail (t1 ++ new)%list) as (out & Ht & Hco). rewrite Ht.
        exists (Ok tt), ([ESecho "Updating metadata..." (fg_only "blue");
                          patch_by_position name description new_name email]
                         ++ new ++ out)%list, k.
        split; [unfold t1; flat; reflexivity |]. split.
        -- simpl. rewrite !client_calls_app, Hc, Hco, app_nil_r. reflexivity.
        -- intros _. now apply Hok.
      * exists (Raise e), ([ESecho "Updating metadata..." (fg_only "blue");
                            patch_by_position name description new_name email]
                           ++ new)%list, k.
        split; [unfold t1; flat; reflexivity |]. split.
        -- simpl. rewrite Hc. reflexivity.
        -- discriminate.
    + exists (Raise e), [ESecho "Updating metadata..." (fg_only "blue");
                         patch_by_position name description new_name email],
             0%nat.
      split; [unfold t1; flat; reflexivity |]. split; [reflexivity |].
      discriminate.
  - unfold bind at 1. unfold ret at 1. unfold bind at 1.
    destruct (Hloop t0) as (res & new & k & H & Hc & Hok). rewrite H.
    destruct res as [[] | e].
    + destruct (Htail (t0 ++ new)%list) as (out & Ht & Hco). rewrite Ht.
      exists (Ok tt), (new ++ out)%list, k.
      split; [flat; reflexivity |]. split.
      * rewrite client_calls_app, Hc, Hco, app_nil_r. reflexivity.
      * intros _. now apply Hok.
    + exists (Raise e), new, k. split; [reflexivity |]. split.
      * rewrite Hc. reflexivity.
      * discriminate.
Qed.

Lemma calls_to_of_client_calls (m : string) (t : trace) :
  calls_to m (client_calls t) = calls_to m t.
Proof.
  induction t as [| e t IH]; [reflexivity |].
  destruct e; simpl; try assumption.
  destruct (method =? m)%string; simpl; now rewrite IH.
Qed.

Lemma calls_to_uploads (paths : list string) :
  calls_to "add_model_file" (map upload_file paths) = map upload_file paths
  /\ calls_to "update_model" (map upload_file paths) = [].
Proof.
  induction paths as [| p paths [IH1 IH2]]; [split; reflexivity |].
  simpl. rewrite IH1, IH2. split; reflexivity.
Qed.



(** C9: an [add_model_file] call receives the path and the progress
    callback and nothing else; the uploads of two runs of [update] that
    differ in the model name only are both drawn, in order, from one
    list that does not mention the name, and are that whole list, hence
    the same, when both runs end well. *)
Theorem update_uploads_do_not_carry_the_name
  (file_size : trace -> string -> result Z) (client : TuclusterClient)
  (name name' : string) (files : list string)
  (description new_name email : option string) (t0 : trace) :
  let run := update file_size client name files description new_name email t0 in
  let run' := update file_size client name' files description new_name email t0 in
  exists (new new' : trace) (k k' : nat),
    snd run = (t0 ++ new)%list
    /\ snd run' = (t0 ++ new')%list
    /\ calls_to "add_model_file" new
       = map (fun path =>
                ECall "add_model_file" [AVal (JStr path)]
                      [("progress_fn", AProgressUpdate)]) (firstn k files)
    /\ calls_to "add_model_file" new'
       = map (fun path =>
                ECall "add_model_file" [AVal (JStr path)]
                      [("progress_fn", AProgressUpdate)]) (firstn k' files)
    /\ (fst run = Ok tt -> fst run' = Ok tt ->
        calls_to "add_model_file" new = calls_to "add_model_file" new'
        /\ length (calls_to "add_model_file" new) = length files).
Proof.
  intros run run'. subst run run'.
  destruct (update_trace file_size client name files description new_name
              email t0) as (res & new & k & H & Hc & Hok).
  destruct (update_trace file_size client name' files description new_name
              email t0) as (res' & new' & k' & H' & Hc' & Hok').
  assert (U : forall (n : string) (tr : trace) (j : nat),
             client_calls tr
             = ((if any_metadata description new_name email
                 then [patch_by_position n description new_name email]
                 else []) ++ map upload_file (firstn j files))%list ->
             calls_to "add_model_file" tr = map upload_file (firstn j files)).
  { intros n tr j E. rewrite <- calls_to_of_client_calls, E, calls_to_app.
    rewrite (proj1 (calls_to_uploads _)).
    destruct (any_metadata description new_name email); reflexivity. }
  exists new, new', k, k'. rewrite H, H'. simpl.
  split; [reflexivity |]. split; [reflexivity |].
  split; [exact (U _ _ _ Hc) |]. split; [exact (U _ _ _ Hc') |].
  intros -> ->. rewrite (U _ _ _ Hc), (U _ _ _ Hc').
  rewrite (Hok eq_refl), (Hok' eq_refl). split; [reflexivity |].
  apply length_map.
Qed.

Lemma update_uploads_do_not_carry_the_name_run :
  calls_to "add_model_file"
    (snd (update (files_of_size 10) obliging_client "dam"
            ["in/a.asc"; "b.tif"] (Some "the dam") None None []))
  = calls_to "add_model_file"
      (snd (update (files_of_size 10) obliging_client "weir"
              ["in/a.asc"; "b.tif"] (Some "the dam") None None [])).
Proof.
  destruct (update_uploads_do_not_carry_the_name
              (files_of_size 10) obliging_client "dam" "weir"
              ["in/a.asc"; "b.tif"] (Some "the dam") None None [])
    as (new & new' & k & k' & Hs & Hs' & _ & _ & Hok).
  rewrite Hs, Hs'. exact (proj1 (Hok eq_refl eq_refl)).
Defined.

(** ** The metadata patch of [update] *)


(** Why the positions matter: were [update_model] declared with its
    parameters in the order in which [create] writes its keywords, the
    positional call of [update] would hand the description over as the
    new name.  The declaration is in [lib.py]. *)
Lemma position_order_matters :
  received ["name"; "new_name"; "description"; "email"]
    (patch_by_position "dam" (Some "the dam") None None) "new_name"
  = Some (AVal (JStr "the dam"))
  /\ received ["name"; "new_name"; "description"; "email"]
       (patch_by_keyword (JStr "dam") None (Some "the dam") None) "new_name"
     = Some (AVal JNull).
Proof. split; reflexivity. Qed.



(** ** The calls of [create] *)

(** C3: without a data path [create] makes one call,
    [create_empty_model(name, description, email)], and no upload.  With
    a data path the calls are drawn, in order, from the upload of the
    archive and the metadata patch, each made at most once and the patch
    never before the upload; once the archive is read and the upload
    answers with a body that holds a name, both are made, and the patch
    is addressed to that name and sets the given name, description and
    email. *)
Theorem create_uploads_then_patches
  (file_size : trace -> string -> result Z) (client : TuclusterClient)
  (name : string) (data description email : option string) (t0 : trace) :
  exists new : trace,
    snd (create file_size client name data description email t0)
    = (t0 ++ new)%list
    /\ (truthy data = false ->
        client_calls new
        = [ECall "create_empty_model"
                 [AVal (JStr name); of_opt_str description; of_opt_str email]
                 []])
    /\ (truthy data = true ->
        (client_calls new = []
         \/ client_calls new = [upload_zip data]
         \/ exists served : json,
              client_calls new
              = [upload_zip data;
                 patch_by_keyword served (Some name) description email])
        /\ forall (size : Z) (post_result : response)
                  (items : list (string * json)) (served : json),
             file_size t0 (str_opt data) = Ok size ->
             post_model_zip client
               (t0 ++ [EBarOpen size "Uploading data"; upload_zip data])%list
             = Ok post_result ->
             json_body post_result = Ok (JDict items) ->
             lookup "name" items = Some served ->
             client_calls new
             = [upload_zip data;
                patch_by_keyword served (Some name) description email]).
Proof.
  unfold create, upload_zip, patch_by_keyword.
  destruct (truthy data) eqn:Hdata.
  - run. destruct (file_size t0 (str_opt data)) as [size | e] eqn:Hsize.
    + flat.
      destruct (post_model_zip client _) as [post_result | e] eqn:Hpost.
      * simpl. destruct (json_body post_result) as [model_dict | e] eqn:Hbody.
        -- destruct model_dict as [| b | z | s | l | items];
             try (simpl; eexists; split; [flat; reflexivity |];
                  split; [discriminate |]; intros _; split;
                  [right; left; reflexivity |];
                  intros size' r' items' served' Es Ep Eb El;
                  injection Es as <-; rewrite Hpost in Ep;
                  injection Ep as <-; rewrite Hbody in Eb; discriminate).
           simpl. destruct (lookup "name" items) as [served |] eqn:Hname.
           ++ simpl.
              destruct (update_model client _) as [[] | e]; simpl;
                (eexists; split; [flat; reflexivity |];
                 split; [discriminate |]; intros _; split;
                 [right; right; exists served; reflexivity |];
                 intros size' r' items' served' Es Ep Eb El;
                 injection Es as <-; rewrite Hpost in Ep;
                 injection Ep as <-; rewrite Hbody in Eb;
                 injection Eb as <-; rewrite Hname in El;
                 injection El as <-; reflexivity).
           ++ simpl. eexists; split; [flat; reflexivity |].
              split; [discriminate |]. intros _. split;
                [right; left; reflexivity |].
              intros size' r' items' served' Es Ep Eb El.
              injection Es as <-. rewrite Hpost in Ep.
              injection Ep as <-. rewrite Hbody in Eb.
              injection Eb as <-. rewrite Hname in El. discriminate.
        -- simpl. eexists; split; [flat; reflexivity |].
           split; [discriminate |]. intros _. split;
             [right; left; reflexivity |].
           intros size' r' items' served' Es Ep Eb El.
           injection Es as <-. rewrite Hpost in Ep.
           injection Ep as <-. rewrite Hbody in Eb. discriminate.
      * simpl. eexists; split; [flat; reflexivity |].
        split; [discriminate |]. intros _. split;
          [right; left; reflexivity |].
        intros size' r' items' served' Es Ep Eb El.
        injection Es as <-. rewrite Hpost in Ep. discriminate.
    + exists []. rewrite app_nil_r. split; [reflexivity |].
      split; [discriminate |]. intros _. split; [left; reflexivity |].
      intros size' r' items' served' Es. discriminate.
  - run. destruct (create_empty_model client _) as [[] | e]; simpl;
      (eexists; split; [flat; reflexivity |];
       split; [reflexivity | discriminate]).
Qed.

Lemma create_uploads_then_patches_run :
  create (files_of_size 10) obliging_client "dam" (Some "dam.zip")
         (Some "the dam") None []
  = (Ok tt,
     [EBarOpen 10 "Uploading data"; upload_zip (Some "dam.zip"); EBarClose;
      ESecho "Upload successful" (fg_only "green");
      ESecho "Updating metadata..." (fg_only "blue");
      patch_by_keyword (JStr "tmp-0001") (Some "dam") (Some "the dam") None;
      ESecho "Model dam created!" (fg_only "green")])
  /\ client_calls
       (snd (create (files_of_size 10) obliging_client "dam" (Some "dam.zip")
               (Some "the dam") None []))
     = [upload_zip (Some "dam.zip");
        patch_by_keyword (JStr "tmp-0001") (Some "dam") (Some "the dam") None]
  /\ client_calls
       (snd (create (files_of_size 10) obliging_client "dam" None
               (Some "the dam") None []))
     = [ECall "create_empty_model"
              [AVal (JStr "dam"); AVal (JStr "the dam"); AVal JNull] []].
Proof.
  split; [reflexivity |]. split.
  - destruct (create_uploads_then_patches
                (files_of_size 10) obliging_client "dam" (Some "dam.zip")
                (Some "the dam") None [])
      as (new & Hs & _ & Hdata).
    rewrite Hs.
    exact (proj2 (Hdata eq_refl) 10 _ _ (JStr "tmp-0001")
             eq_refl eq_refl eq_refl eq_refl).
  - destruct (create_uploads_then_patches
                (files_of_size 10) obliging_client "dam" None
                (Some "the dam") None [])
      as (new & Hs & Hnone & _).
    rewrite Hs. exact (Hnone eq_refl).
Defined.

(** ** The error boundary *)

(** What the group runs for each sub-command is the function under the
    decorators, as it is. *)
Lemma run_cli_runs_the_function
  (file_size : trace -> string -> result Z)
  (new_client : string -> TuclusterClient) (host : string) (debug : bool)
  (p : params) (t : trace) :
  run_cli file_size new_client host debug "create" p t
  = create_fn file_size (new_client host) p t
  /\ run_cli file_size new_client host debug "update" p t
     = update_fn file_size (new_client host) p t
  /\ run_cli file_size new_client host debug "anuga" p t
     = anuga_fn (new_client host) p t
  /\ run_cli file_size new_client host debug "tuflow" p t
     = tuflow_fn (new_client host) p t
  /\ run_cli file_size new_client host debug "model" p t
     = model_fn (new_client host) p t
  /\ run_cli file_size new_client host debug "results" p t
     = results_fn (new_client host) p t
  /\ run_cli file_size new_client host debug "file" p t
     = file_fn (new_client host) p t.
Proof. repeat split. Qed.

(** [format_exception] does what its docstring says on the function it
    is given: an [Exception] ends as one bold white-on-red line. *)
Lemma format_exception_catches {P : Type} (func : P -> M unit) (args : P)
  (t t' : trace) (e : exc) :
  func args t = (Raise e, t') ->
  exc_is_Exception e = true ->
  format_exception func args t
  = (Ok tt, (t' ++ [ESecho (exc_text e) alert])%list).
Proof.
  intros H He. unfold format_exception, try_except. rewrite H, He.
  reflexivity.
Qed.

(** C1 is not what the code does: [tuga create dam] against a server
    that refuses the connection.  The command the group holds is the
    one [cli.command()] built, before [format_exception] was applied:
    the error leaves the group and no line is written.  The wrapper
    exists, bound to the global name [create], and would have written
    the line. *)
Theorem dispatched_create_lets_the_error_through :
  run_cli (files_of_size 10) (fun _ => refusing_client)
          "http://localhost:8000" false "create"
          (PCreate "dam" None None None) []
  = (Raise ConnectionError,
     [ECall "create_empty_model"
            [AVal (JStr "dam"); AVal JNull; AVal JNull] []])
  /\ match get_global "create"
             (globals (main_py (files_of_size 10))) with
     | Some wrap =>
         wrap {| obj := refusing_client |} (PCreate "dam" None None None) []
         = (Ok tt,
            [ECall "create_empty_model"
                   [AVal (JStr "dam"); AVal JNull; AVal JNull] [];
             ESecho "Connection refused" alert])
     | None => False
     end.
Proof. split; reflexivity. Qed.

(** * Further properties of the commands *)

(** ** [format_exception] *)

(** X1: the wrapper never ends in an [Exception]; it keeps everything
    the function did before it failed and adds at most one line; an
    [Exception] of the function ends as that one line, its text in bold
    white on red, and a normal return; an error that is not an
    [Exception] passes through as it is, with nothing written. *)
Theorem format_exception_is_a_boundary {P : Type} (func : P -> M unit)
  (args : P) (t : trace) :
  (forall e : exc,
      fst (format_exception func args t) = Raise e ->
      exc_is_Exception e = false /\ func args t = format_exception func args t)
  /\ (exists suffix : trace,
         snd (format_exception func args t)
         = (snd (func args t) ++ suffix)%list
         /\ (suffix = []
             \/ exists e : exc,
                  fst (func args t) = Raise e
                  /\ suffix = [ESecho (exc_text e) alert]))
  /\ (fst (func args t) = Ok tt ->
      format_exception func args t = func args t)
  /\ (forall (e : exc) (t' : trace),
         func args t = (Raise e, t') ->
         exc_is_Exception e = false ->
         format_exception func args t = (Raise e, t'))
  /\ (forall (e : exc) (t' : trace),
         func args t = (Raise e, t') ->
         exc_is_Exception e = true ->
         format_exception func args t
         = (Ok tt, (t' ++ [ESecho (exc_text e) alert])%list)).
Proof.
  unfold format_exception, try_except.
  destruct (func args t) as [[[] | e] t'] eqn:E; simpl.
  - split; [discriminate |]. split.
    { exists []. rewrite app_nil_r. split; [reflexivity | now left]. }
    split; [reflexivity |]. split; discriminate.
  - destruct (exc_is_Exception e) eqn:He; simpl.
    + split; [discriminate |]. split.
      { exists [ESecho (exc_text e) alert]. split; [reflexivity |].
        right. now exists e. }
      split; [discriminate |]. split.
      * intros e0 t0 H H0. injection H as <- <-. congruence.
      * intros e0 t0 H _. injection H as <- <-. reflexivity.
    + split.
      { intros e' H. injection H as <-. now split. }
      split.
      { exists []. rewrite app_nil_r. split; [reflexivity | now left]. }
      split; [discriminate |]. split.
      * intros e0 t0 H _. injection H as <- <-. reflexivity.
      * intros e0 t0 H H0. injection H as <- <-. congruence.
Qed.

Lemma format_exception_is_a_boundary_run :
  format_exception (fun p => create (files_of_size 10) refusing_client
                               "dam" None None p) None []
  = (Ok tt,
     [ECall "create_empty_model"
            [AVal (JStr "dam"); AVal JNull; AVal JNull] [];
      ESecho "Connection refused" alert])
  /\ format_exception (fun _ : unit => raise KeyboardInterrupt) tt []
     = (Raise KeyboardInterrupt, []).
Proof.
  split.
  - destruct (format_exception_is_a_boundary
                (fun p => create (files_of_size 10) refusing_client
                            "dam" None None p) None [])
      as (_ & _ & _ & _ & Hcatch).
    exact (Hcatch ConnectionError _ eq_refl eq_refl).
  - destruct (format_exception_is_a_boundary
                (fun _ : unit => raise KeyboardInterrupt) tt [])
      as (_ & _ & _ & Hpass & _).
    exact (Hpass KeyboardInterrupt [] eq_refl eq_refl).
Defined.

(** X2: wrapping twice is wrapping once. *)
Theorem format_exception_twice {P : Type} (func : P -> M unit)
  (args : P) (t : trace) :
  format_exception (format_exception func) args t
  = format_exception func args t.
Proof.
  unfold format_exception, try_except.
  destruct (func args t) as [[[] | e] t']; [reflexivity |].
  destruct (exc_is_Exception e) eqn:He; simpl; [reflexivity |].
  now rewrite He.
Qed.

(** ** The group *)



(** ** The shape of a run of [update] *)

Lemma bars_app (open : bool) (a b : trace) :
  bars open (a ++ b)%list
  = match bars open a with
    | Some open' => bars open' b
    | None => None
    end.
Proof.
  revert open. induction a as [| e a IH]; intros open; simpl.
  - reflexivity.
  - destruct (bar_step open e); [apply IH | reflexivity].
Qed.

Lemma upload_step_shape (file_size : trace -> string -> result Z)
  (client : TuclusterClient) (path : string) (t : trace) :
  exists (res : result unit) (new : trace),
    upload_step file_size client path t = (res, (t ++ new)%list)
    /\ bars false new = Some false
    /\ Forall (fun e => is_secho e = false) new.
Proof.
  unfold upload_step. run.
  destruct (file_size t path) as [size | e].
  - destruct (add_model_file client _) as [[] | e]; eexists; eexists;
      (split; [flat; reflexivity |]); split; try reflexivity;
      repeat constructor.
  - exists (Raise e), []. rewrite app_nil_r. repeat split. constructor.
Qed.

Lemma upload_loop_shape (file_size : trace -> string -> result Z)
  (client : TuclusterClient) (files : list string) :
  forall t : trace,
  exists (res : result unit) (mid : trace),
    for_each files (upload_step file_size client) t = (res, (t ++ mid)%list)
    /\ bars false mid = Some false
    /\ Forall (fun e => is_secho e = false) mid.
Proof.
  induction files as [| path files IH]; intros t.
  - exists (Ok tt), []. simpl. unfold ret. rewrite app_nil_r.
    repeat split. constructor.
  - destruct (upload_step_shape file_size client path t)
      as (res1 & new1 & H1 & Hb1 & Hs1).
    simpl. unfold bind. rewrite H1. destruct res1 as [[] | e].
    + destruct (IH (t ++ new1)%list) as (res2 & new2 & H2 & Hb2 & Hs2).
      exists res2, (new1 ++ new2)%list. rewrite H2, app_assoc.
      split; [reflexivity |]. split.
      * now rewrite bars_app, Hb1.
      * apply Forall_app. now split.
    + exists (Raise e), new1. repeat split; assumption.
Qed.

(** Every run of [update]: the patch events when the guard asks for
    them, the events of the loop, and the closing lines when, and only
    when, the command ends well. *)
Lemma update_shape (file_size : trace -> string -> result Z)
  (client : TuclusterClient) (name : string) (files : list string)
  (description new_name email : option string) (t0 : trace) :
  exists (res : result unit) (mid : trace),
    update file_size client name files description new_name email t0
    = (res,
       (t0 ++ patch_events name description new_name email ++ mid
           ++ match res with
              | Ok _ => closing_lines name new_name
              | Raise _ => []
              end)%list)
    /\ bars false mid = Some false
    /\ Forall (fun e => is_secho e = false) mid.
Proof.
  unfold update, patch_events, any_metadata.
  assert (Hloop : forall t : trace,
             exists (res : result unit) (mid : trace),
               match files with
               | [] => ret tt
               | _ => for_each files (upload_step file_size client)
               end t = (res, (t ++ mid)%list)
               /\ bars false mid = Some false
               /\ Forall (fun e => is_secho e = false) mid).
  { intros t. destruct files as [| path files].
    - exists (Ok tt), []. unfold ret. rewrite app_nil_r.
      repeat split. constructor.
    - apply upload_loop_shape. }
  assert (Htail : forall t : trace,
             (secho ("Model " ++ name ++ " updated!") (fg_only "green") ;;
              if truthy new_name then
                secho ("The model has been renamed to " ++ str_opt new_name
                       ++ ". Use this name for future queries")
                      (fg_only "blue")
              else ret tt) t
             = (Ok tt, (t ++ closing_lines name new_name)%list)).
  { intros t. unfold closing_lines. run.
    destruct (truthy new_name); flat; reflexivity. }
  destruct (truthy description || truthy new_name || truthy email).
  - unfold bind at 1. unfold bind at 1. unfold secho at 1. unfold emit at 1.
    unfold call at 1. cbv beta iota zeta.
    set (t1 := ((t0 ++ [ESecho "Updating metadata..." (fg_only "blue")]) ++
                [ECall "update_model"
                   [of_str name; of_opt_str description; of_opt_str new_name;
                    of_opt_str email] []])%list).
    destruct (update_model client t1) as [[] | e].
    + unfold bind at 1.
      destruct (Hloop t1) as (res & mid & H & Hb & Hs). rewrite H.
      exists res, mid. split; [| now split].
      destruct res as [[] | e].
      * rewrite Htail. unfold t1. flat. reflexivity.
      * unfold t1. flat. rewrite app_nil_r. reflexivity.
    + exists (Raise e), []. split; [| split; [reflexivity | constructor]].
      unfold t1. flat. reflexivity.
  - unfold bind at 1. unfold ret at 1. unfold bind at 1.
    destruct (Hloop t0) as (res & mid & H & Hb & Hs). rewrite H.
    exists res, mid. split; [| now split].
    destruct res as [[] | e].
    + rewrite Htail. flat. reflexivity.
    + simpl. rewrite app_nil_r. reflexivity.
Qed.

(** ** What [update] writes, and when *)

(** X4: when the metadata patch fails, [update] ends with that error
    right there: no file is read or sent, and no further line is
    written. *)
Theorem update_stops_at_a_failed_patch
  (file_size : trace -> string -> result Z) (client : TuclusterClient)
  (name : string) (files : list string)
  (description new_name email : option string) (t0 : trace) (e : exc) :
  any_metadata description new_name email = true ->
  update_model client
    (t0 ++ [updating_line;
            patch_by_position name description new_name email])%list
  = Raise e ->
  update file_size client name files description new_name email t0
  = (Raise e,
     (t0 ++ [updating_line;
             patch_by_position name description new_name email])%list).
Proof.
  unfold any_metadata, updating_line, patch_by_position.
  intros Hany Hpatch. unfold update. rewrite Hany. run.
  flat. flat. rewrite Hpatch. reflexivity.
Qed.

Lemma update_stops_at_a_failed_patch_run :
  update (files_of_size 10) refusing_client "dam" ["in/a.asc"; "b.tif"]
         None (Some "weir") None []
  = (Raise ConnectionError,
     [updating_line; patch_by_position "dam" None (Some "weir") None]).
Proof.
  apply (update_stops_at_a_failed_patch
           (files_of_size 10) refusing_client "dam" ["in/a.asc"; "b.tif"]
           None (Some "weir") None [] ConnectionError);
    reflexivity.
Defined.

(** X5: [update] writes [Model <name> updated!] exactly when it ends
    well, and the hint on the new name exactly when it ends well and a
    new name was given that is not empty. *)
Theorem update_reports_success_only
  (file_size : trace -> string -> result Z) (client : TuclusterClient)
  (name : string) (files : list string)
  (description new_name email : option string) (t0 : trace) :
  exists (res : result unit) (new : trace),
    update file_size client name files description new_name email t0
    = (res, (t0 ++ new)%list)
    /\ (In (updated_line name) new <-> res = Ok tt)
    /\ (In (renamed_line new_name) new
        <-> res = Ok tt /\ truthy new_name = true).
Proof.
  destruct (update_shape file_size client name files description new_name
              email t0) as (res & mid & H & _ & Hs).
  eexists; eexists. split; [exact H |].
  assert (Hmid : forall text st, ~ In (ESecho text st) mid).
  { intros text st Hin. rewrite Forall_forall in Hs.
    specialize (Hs _ Hin). discriminate Hs. }
  assert (Hpre : forall text st,
             In (ESecho text st)
                (patch_events name description new_name email) ->
             text = "Updating metadata...").
  { intros text st. unfold patch_events.
    destruct (any_metadata description new_name email); simpl.
    - intros [E | [E | []]]; [now injection E | discriminate E].
    - intros []. }
  unfold updated_line, renamed_line in *. split; split.
  - intros Hin. apply in_app_or in Hin. destruct Hin as [Hin | Hin].
    { apply Hpre in Hin. discriminate Hin. }
    apply in_app_or in Hin. destruct Hin as [Hin | Hin].
    { now apply Hmid in Hin. }
    destruct res as [[] | e]; [reflexivity | destruct Hin].
  - intros ->. apply in_or_app. right. apply in_or_app. right.
    left. reflexivity.
  - intros Hin. apply in_app_or in Hin. destruct Hin as [Hin | Hin].
    { apply Hpre in Hin. discriminate Hin. }
    apply in_app_or in Hin. destruct Hin as [Hin | Hin].
    { now apply Hmid in Hin. }
    destruct res as [[] | e]; [| destruct Hin].
    split; [reflexivity |]. unfold closing_lines in Hin.
    destruct Hin as [E | Hin]; [discriminate E |].
    destruct (truthy new_name); [reflexivity | destruct Hin].
  - intros [-> Ht]. apply in_or_app. right. apply in_or_app. right.
    unfold closing_lines. rewrite Ht. right. left. reflexivity.
Qed.

(** ** Progress bars *)

(** X6: in [update] and in [create] every file is sent while one
    progress bar is open, every bar that is opened is closed, also when
    the upload fails, and nothing else is called or written while a bar
    is open. *)
Theorem bars_bracket_the_uploads
  (file_size : trace -> string -> result Z) (client : TuclusterClient)
  (name : string) (files : list string)
  (data description new_name email : option string) (t0 : trace) :
  (exists new : trace,
      snd (update file_size client name files description new_name email t0)
      = (t0 ++ new)%list
      /\ bars false new = Some false)
  /\ (exists new : trace,
         snd (create file_size client name data description email t0)
         = (t0 ++ new)%list
         /\ bars false new = Some false).
Proof.
  split.
  - destruct (update_shape file_size client name files description new_name
                email t0) as (res & mid & H & Hb & _).
    eexists. rewrite H. split; [reflexivity |].
    assert (Hpre : bars false (patch_events name description new_name email)
                   = Some false).
    { unfold patch_events.
      destruct (any_metadata description new_name email); reflexivity. }
    rewrite bars_app, Hpre, bars_app, Hb.
    destruct res as [[] | e]; [| reflexivity].
    unfold closing_lines. destruct (truthy new_name); reflexivity.
  - unfold create. destruct (truthy data).
    + run. destruct (file_size t0 (str_opt data)) as [size | e].
      * flat. destruct (post_model_zip client _) as [post_result | e]; simpl.
        -- destruct (json_body post_result) as [model_dict | e]; simpl.
           ++ destruct model_dict as [| b | z | s | l | items]; simpl;
                try (eexists; split; [flat; reflexivity | reflexivity]).
              destruct (lookup "name" items) as [served |]; simpl.
              ** destruct (update_model client _) as [[] | e]; simpl;
                   (eexists; split; [flat; reflexivity | reflexivity]).
              ** eexists; split; [flat; reflexivity | reflexivity].
           ++ eexists; split; [flat; reflexivity | reflexivity].
        -- eexists; split; [flat; reflexivity | reflexivity].
      * exists []. rewrite app_nil_r. split; reflexivity.
    + run. destruct (create_empty_model client _) as [[] | e]; simpl;
        (eexists; split; [flat; reflexivity | reflexivity]).
Qed.

(** ** What [create] writes, and when *)

Ltac no_such_line H :=
  simpl in H;
  repeat (destruct H as [H | H]; [discriminate H |]);
  destruct H.

Ltac failed_run :=
  eexists; eexists; split; [flat; reflexivity |];
  split; [intros Hin; no_such_line Hin | discriminate].

Ltac good_run :=
  eexists; eexists; split; [flat; reflexivity |];
  split; [reflexivity |];
  intros _; simpl; repeat (first [left; reflexivity | right]).

(** X7: [create] writes [Model <name> created!] exactly when it ends
    well: after an unreadable archive, a failed upload, a response
    without a name or a failed call, the line is not written. *)
Theorem create_reports_success_only
  (file_size : trace -> string -> result Z) (client : TuclusterClient)
  (name : string) (data description email : option string) (t0 : trace) :
  exists (res : result unit) (new : trace),
    create file_size client name data description email t0
    = (res, (t0 ++ new)%list)
    /\ (In (created_line name) new <-> res = Ok tt).
Proof.
  unfold create, created_line. destruct (truthy data).
  - run. destruct (file_size t0 (str_opt data)) as [size | e].
    + flat. destruct (post_model_zip client _) as [post_result | e]; simpl.
      * destruct (json_body post_result) as [model_dict | e]; simpl.
        -- destruct model_dict as [| b | z | s | l | items]; simpl;
             try failed_run.
           destruct (lookup "name" items) as [served |]; simpl.
           ++ destruct (update_model client _) as [[] | e]; simpl;
                [good_run | failed_run].
           ++ failed_run.
        -- failed_run.
      * failed_run.
    + exists (Raise e), []. rewrite app_nil_r. split; [reflexivity |].
      split; [intros [] | discriminate].
  - run. destruct (create_empty_model client _) as [[] | e]; simpl;
      [good_run | failed_run].
Qed.

(** X8: a metadata patch that fails after the upload leaves the archive
    uploaded under the name the server chose: [create] ends with the
    error of the patch, the upload has been made and is not undone. *)
Theorem create_keeps_the_upload_when_the_patch_fails
  (file_size : trace -> string -> result Z) (client : TuclusterClient)
  (name : string) (data description email : option string) (t0 : trace)
  (size : Z) (post_result : response) (items : list (string * json))
  (served : json) (e : exc) :
  truthy data = true ->
  file_size t0 (str_opt data) = Ok size ->
  post_model_zip client
    (t0 ++ [EBarOpen size "Uploading data"; upload_zip data])%list
  = Ok post_result ->
  json_body post_result = Ok (JDict items) ->
  lookup "name" items = Some served ->
  update_model client
    (t0 ++ [EBarOpen size "Uploading data"; upload_zip data; EBarClose;
            ESecho "Upload successful" (fg_only "green"); updating_line;
            patch_by_keyword served (Some name) description email])%list
  = Raise e ->
  create file_size client name data description email t0
  = (Raise e,
     (t0 ++ [EBarOpen size "Uploading data"; upload_zip data; EBarClose;
             ESecho "Upload successful" (fg_only "green"); updating_line;
             patch_by_keyword served (Some name) description email])%list).
Proof.
  unfold upload_zip, updating_line, patch_by_keyword.
  intros Hdata Hsize Hpost Hbody Hname Hpatch.
  unfold create. rewrite Hdata. run. rewrite Hsize. flat.
  rewrite Hpost. simpl. rewrite Hbody. simpl. rewrite Hname. simpl.
  flat. flat. unfold of_str. cbn [of_opt_str] in Hpatch.
  rewrite Hpatch. reflexivity.
Qed.

Lemma create_keeps_the_upload_when_the_patch_fails_run :
  create (files_of_size 10) patchless_client "dam" (Some "dam.zip")
         None None []
  = (Raise ConnectionError,
     [EBarOpen 10 "Uploading data"; upload_zip (Some "dam.zip"); EBarClose;
      ESecho "Upload successful" (fg_only "green"); updating_line;
      patch_by_keyword (JStr "tmp-0001") (Some "dam") None None]).
Proof.
  apply (create_keeps_the_upload_when_the_patch_fails
           (files_of_size 10) patchless_client "dam" (Some "dam.zip")
           None None [] 10
           {| status_code := 201;
              json_body := Ok (JDict [("name", JStr "tmp-0001")]) |}
           [("name", JStr "tmp-0001")] (JStr "tmp-0001") ConnectionError);
    reflexivity.
Defined.

(** X9: when the archive cannot be read, [create] ends with the error
    of the file system: nothing is sent to the client and nothing is
    written. *)
Theorem create_sends_nothing_it_cannot_read
  (file_size : trace -> string -> result Z) (client : TuclusterClient)
  (name : string) (data description email : option string) (t0 : trace)
  (e : exc) :
  truthy data = true ->
  file_size t0 (str_opt data) = Raise e ->
  create file_size client name data description email t0 = (Raise e, t0).
Proof.
  intros Hdata Hsize. unfold create. rewrite Hdata. run. rewrite Hsize.
  reflexivity.
Qed.

Lemma create_sends_nothing_it_cannot_read_run :
  fst (create unreadable obliging_client "dam" (Some "dam.zip") None None [])
  = Raise {| exc_class := "PermissionError";
             exc_text := "Permission denied";
             exc_is_Exception := true |}
  /\ snd (create unreadable obliging_client "dam" (Some "dam.zip")
            None None [])
     = [].
Proof.
  rewrite (create_sends_nothing_it_cannot_read
             unreadable obliging_client "dam" (Some "dam.zip") None None []
             _ eq_refl eq_refl).
  split; reflexivity.
Defined.

(** ** The printer of run results, at its edges *)

(** X10: when no run was created, the printer writes one failure line
    per result and ends well; for no result at all it writes nothing. *)
Theorem print_run_results_all_failed (rs : list response) (t : trace) :
  Forall (fun r => status_code r <> 201) rs ->
  _print_run_results rs t
  = (Ok tt, (t ++ map (fun _ => failure_line) rs)%list).
Proof.
  unfold _print_run_results, failure_line.
  intros H. revert t. induction H as [| r rs Hr _ IH]; intros t.
  - simpl. unfold ret. now rewrite app_nil_r.
  - simpl. unfold bind, print_run_result at 1.
    destruct (Z.eqb_spec (status_code r) 201) as [E | _]; [contradiction |].
    run. rewrite IH. flat. reflexivity.
Qed.

Lemma print_run_results_all_failed_run :
  _print_run_results [failed; failed] []
  = (Ok tt, [failure_line; failure_line]).
Proof.
  apply (print_run_results_all_failed [failed; failed] []).
  repeat constructor; discriminate.
Defined.

(** X11: a created run whose response cannot be read ends the printing
    with the error, and the results after it are not looked at: with no
    JSON body, or a body without an entry point, nothing is written for
    it; with an entry point and no task id, the first two of its lines
    are written before the error. *)
Theorem print_run_results_stops_at_a_bad_body
  (r : response) (rs : list response) (t : trace) :
  status_code r = 201 ->
  (forall e : exc,
      json_body r = Raise e ->
      _print_run_results (r :: rs) t = (Raise e, t))
  /\ (forall items : list (string * json),
         json_body r = Ok (JDict items) ->
         lookup "entry_point" items = None ->
         _print_run_results (r :: rs) t = (Raise (KeyError "entry_point"), t))
  /\ (forall (items : list (string * json)) (entry_point : json),
         json_body r = Ok (JDict items) ->
         lookup "entry_point" items = Some entry_point ->
         lookup "task_id" items = None ->
         _print_run_results (r :: rs) t
         = (Raise (KeyError "task_id"),
            (t ++ [ESecho ("Run for script " ++ py_str entry_point
                           ++ " created.") (fg_only "green");
                   ESecho "To check the results, run: " plain])%list)).
Proof.
  intros Hs. unfold _print_run_results.
  split; [| split]; intros; simpl for_each;
    unfold bind at 1, print_run_result at 1; rewrite Hs; simpl; run.
  - rewrite H. reflexivity.
  - rewrite H. simpl. rewrite H0. reflexivity.
  - rewrite H. simpl. rewrite H0. simpl. rewrite H1. simpl. flat.
    reflexivity.
Qed.

Lemma print_run_results_stops_at_a_bad_body_run :
  _print_run_results
    [{| status_code := 201;
        json_body := Ok (JDict [("entry_point", JStr "run.py")]) |};
     created] []
  = (Raise (KeyError "task_id"),
     [ESecho "Run for script run.py created." (fg_only "green");
      ESecho "To check the results, run: " plain]).
Proof.
  destruct (print_run_results_stops_at_a_bad_body
              {| status_code := 201;
                 json_body := Ok (JDict [("entry_point", JStr "run.py")]) |}
              [created] [] eq_refl) as (_ & _ & H).
  exact (H _ (JStr "run.py") eq_refl eq_refl eq_refl).
Defined.

Lemma print_run_result_lines (r : response) (t : trace) :
  exists out : trace,
    snd (print_run_result r t) = (t ++ out)%list
    /\ Forall (fun e => is_secho e = true) out
    /\ (length out <= 3)%nat.
Proof.
  unfold print_run_result.
  destruct (status_code r =? 201).
  - run. destruct (json_body r) as [data | e].
    + destruct data as [| b | z | s | l | items];
        try (simpl; exists []; rewrite app_nil_r;
             split; [reflexivity |]; split; [constructor | simpl; lia]).
      simpl. destruct (lookup "entry_point" items) as [ep |].
      * simpl. destruct (lookup "task_id" items) as [tid |]; simpl;
          (eexists; split; [flat; reflexivity |];
           split; [repeat constructor | simpl; lia]).
      * simpl. exists []. rewrite app_nil_r.
        split; [reflexivity |]. split; [constructor | simpl; lia].
    + exists []. rewrite app_nil_r.
      split; [reflexivity |]. split; [constructor | simpl; lia].
  - run. eexists. split; [reflexivity |].
    split; [repeat constructor | simpl; lia].
Qed.

(** X12: whatever the results hold, the printer only writes lines, at
    most three per result, and touches nothing else. *)
Theorem print_run_results_only_writes (rs : list response) (t : trace) :
  exists out : trace,
    snd (_print_run_results rs t) = (t ++ out)%list
    /\ Forall (fun e => is_secho e = true) out
    /\ client_calls out = []
    /\ (length out <= 3 * length rs)%nat.
Proof.
  unfold _print_run_results. revert t.
  induction rs as [| r rs IH]; intros t.
  - exists []. simpl. rewrite app_nil_r.
    repeat split; [constructor | lia].
  - destruct (print_run_result_lines r t) as (out1 & H1 & Hs1 & Hl1).
    simpl for_each. unfold bind.
    destruct (print_run_result r t) as [[[] | e] t1] eqn:E;
      simpl in H1; subst t1.
    + destruct (IH (t ++ out1)%list) as (out2 & H2 & Hs2 & Hc2 & Hl2).
      exists (out1 ++ out2)%list. rewrite H2, app_assoc.
      split; [reflexivity |]. split; [apply Forall_app; now split |].
      split.
      * rewrite client_calls_app, Hc2, app_nil_r.
        clear - Hs1. induction Hs1 as [| x out Hx _ IHo]; [reflexivity |].
        destruct x; try discriminate Hx. exact IHo.
      * rewrite length_app. simpl length. lia.
    + exists out1. split; [reflexivity |]. split; [assumption |]. split.
      * clear - Hs1. induction Hs1 as [| x out Hx _ IHo]; [reflexivity |].
        destruct x; try discriminate Hx. exact IHo.
      * simpl length. lia.
Qed.

(** ** [model] and [results] when the client fails or no name is given *)

(** X13: without a name, or with an empty one, [model] lists all
    models with one call, [get_models()], and [--tree] has no effect. *)
Theorem model_without_name_lists_all
  (client : TuclusterClient) (name : option string) (tree tree' : option bool)
  (t0 : trace) :
  truthy name = false ->
  model client name tree t0 = model client name tree' t0
  /\ exists new : trace,
       snd (model client name tree t0) = (t0 ++ new)%list
       /\ client_calls new = [ECall "get_models" [] []].
Proof.
  intros Hn. unfold model. rewrite Hn. split; [reflexivity |]. run.
  destruct (get_models client _) as [j | e]; simpl.
  - eexists. split; [flat; reflexivity | reflexivity].
  - eexists. split; reflexivity.
Qed.

Lemma model_without_name_lists_all_run :
  model obliging_client (Some "") (Some true) []
  = model obliging_client (Some "") None []
  /\ client_calls (snd (model obliging_client (Some "") (Some true) []))
     = [ECall "get_models" [] []].
Proof.
  destruct (model_without_name_lists_all
              obliging_client (Some "") (Some true) None [] eq_refl)
    as [Hsame (new & Hs & Hc)].
  split; [exact Hsame |]. rewrite Hs. exact Hc.
Defined.

(** X14: when the client fails, [model] and [results] end with its
    error having written nothing, not even their heading. *)
Theorem queries_write_nothing_on_error
  (client : TuclusterClient) (t0 : trace) (e : exc) :
  (forall (name : option string) (tree : option bool),
      model_answer client name (t0 ++ [model_call name tree])%list = Raise e ->
      model client name tree t0
      = (Raise e, (t0 ++ [model_call name tree])%list))
  /\ (forall task model_name script download tree : option string,
         get_results client (t0 ++ [results_call task model_name script])%list
         = Raise e ->
         results client task model_name script download tree t0
         = (Raise e, (t0 ++ [results_call task model_name script])%list)).
Proof.
  split.
  - intros name tree H. unfold model, model_answer, model_call in *. run.
    destruct (truthy name); rewrite H; reflexivity.
  - intros task model_name script download tree H.
    unfold results, results_call in *. run. rewrite H. reflexivity.
Qed.

Lemma queries_write_nothing_on_error_run :
  results refusing_client (Some "7f3a") None None None None []
  = (Raise ConnectionError, [results_call (Some "7f3a") None None]).
Proof.
  destruct (queries_write_nothing_on_error refusing_client []
              ConnectionError) as [_ H].
  exact (H (Some "7f3a") None None None None eq_refl).
Defined.

(** ** [json.dumps] with [sort_keys=True] *)

Lemma json_induction (P : json -> Prop) :
  P JNull ->
  (forall b, P (JBool b)) ->
  (forall z, P (JInt z)) ->
  (forall s, P (JStr s)) ->
  (forall l, Forall P l -> P (JList l)) ->
  (forall items, Forall (fun kv => P (snd kv)) items -> P (JDict items)) ->
  forall v, P v.
Proof.
  intros Hnull Hbool Hint Hstr Hlist Hdict.
  fix IH 1. intros [| b | z | s | l | items].
  - exact Hnull.
  - apply Hbool.
  - apply Hint.
  - apply Hstr.
  - apply Hlist. induction l as [| x l IHl]; constructor.
    + apply IH.
    + exact IHl.
  - apply Hdict. induction items as [| [k x] items IHl]; constructor.
    + apply IH.
    + exact IHl.
Qed.

Lemma string_compare_lt_trans (s1 s2 s3 : string) :
  String.compare s1 s2 = Lt -> String.compare s2 s3 = Lt ->
  String.compare s1 s3 = Lt.
Proof.
  revert s2 s3. induction s1 as [| c1 s1 IH]; intros [| c2 s2] [| c3 s3];
    simpl; try discriminate; try reflexivity.
  unfold Ascii.compare.
  destruct (N.compare_spec (N_of_ascii c1) (N_of_ascii c2)) as [E12 | L12 | G12];
    try discriminate.
  - rewrite E12. destruct (N.compare (N_of_ascii c2) (N_of_ascii c3));
      try discriminate; [apply IH | reflexivity].
  - intros _.
    destruct (N.compare_spec (N_of_ascii c2) (N_of_ascii c3)) as [E23 | L23 | G23];
      try discriminate.
    + intros _. rewrite <- E23.
      now rewrite (proj2 (N.compare_lt_iff _ _) L12).
    + intros _.
      now rewrite (proj2 (N.compare_lt_iff _ _) (N.lt_trans _ _ _ L12 L23)).
Qed.

Lemma string_leb_trans (s1 s2 s3 : string) :
  String.leb s1 s2 = true -> String.leb s2 s3 = true ->
  String.leb s1 s3 = true.
Proof.
  unfold String.leb.
  destruct (String.compare s1 s2) eqn:E12; try discriminate;
    destruct (String.compare s2 s3) eqn:E23; try discriminate; intros _ _.
  - apply String.compare_eq_iff in E12. subst. now rewrite E23.
  - apply String.compare_eq_iff in E12. subst. now rewrite E23.
  - apply String.compare_eq_iff in E23. subst. now rewrite E12.
  - now rewrite (string_compare_lt_trans _ _ _ E12 E23).
Qed.

(** Two lists in key order that hold the same items, no key twice, are
    the same list. *)
Lemma sorted_unique {A : Type} (l1 : list (string * A)) :
  forall l2 : list (string * A),
    StronglySorted key_le l1 -> StronglySorted key_le l2 ->
    Permutation l1 l2 -> NoDup (map fst l1) -> l1 = l2.
Proof.
  induction l1 as [| a l1 IH]; intros l2 S1 S2 Hp Hn.
  - apply Permutation_nil in Hp. now subst.
  - destruct l2 as [| b l2].
    { apply Permutation_sym, Permutation_nil in Hp. discriminate. }
    inversion S1 as [| ? ? S1' F1]; subst.
    inversion S2 as [| ? ? S2' F2]; subst.
    inversion Hn as [| ? ? Hnotin Hn']; subst.
    assert (E : a = b).
    { assert (Ha : In a (b :: l2)).
      { eapply Permutation_in; [exact Hp | now left]. }
      destruct Ha as [Ha | Ha]; [now symmetry |].
      assert (Hb : In b (a :: l1)).
      { eapply Permutation_in; [apply Permutation_sym; exact Hp | now left]. }
      destruct Hb as [Hb | Hb]; [assumption |].
      exfalso. apply Hnotin.
      rewrite Forall_forall in F1, F2.
      assert (Ek : fst a = fst b).
      { apply String.leb_antisym; [apply (F1 _ Hb) | apply (F2 _ Ha)]. }
      rewrite Ek. now apply in_map. }
    subst b. f_equal. apply IH; try assumption.
    now apply Permutation_cons_inv in Hp.
Qed.

Lemma no_repeat_NoDup (keys : list string) :
  no_repeat keys = true -> NoDup keys.
Proof.
  induction keys as [| k keys IH]; simpl; intros H; constructor.
  - apply andb_prop in H. destruct H as [H _].
    intros Hin. apply negb_true_iff in H.
    assert (E : existsb (String.eqb k) keys = true).
    { apply existsb_exists. exists k. split; [assumption |].
      apply String.eqb_refl. }
    congruence.
  - apply andb_prop in H. now apply IH.
Qed.

Lemma sorted_items_of_permutation {A : Type} (l1 l2 : list (string * A)) :
  Permutation l1 l2 -> NoDup (map fst l1) ->
  sorted_items l1 = sorted_items l2.
Proof.
  intros Hp Hn.
  assert (T : Relations_1.Transitive (@key_le A)).
  { intros x y z. unfold key_le. apply string_leb_trans. }
  apply sorted_unique.
  - apply Sorted_StronglySorted; [exact T | apply sorted_items_sorted].
  - apply Sorted_StronglySorted; [exact T | apply sorted_items_sorted].
  - eapply perm_trans; [apply Permutation_sym, sorted_items_perm |].
    eapply perm_trans; [exact Hp | apply sorted_items_perm].
  - eapply Permutation_NoDup; [| exact Hn].
    apply Permutation_map, sorted_items_perm.
Qed.

Lemma iterencode_dict (level : nat) (items : list (string * json)) :
  items <> [] ->
  iterencode dumps_kwargs level (JDict items)
  = "{" ++ opening dumps_kwargs level
        ++ String.concat (separator dumps_kwargs level)
             (map (encode_item dumps_kwargs)
                (sorted_items
                   (map (fun kv =>
                           (fst kv, iterencode dumps_kwargs (S level) (snd kv)))
                      items)))
        ++ closing dumps_kwargs level ++ "}".
Proof.
  intros Hne. destruct items as [| [k0 x0] items]; [contradiction |].
  assert (E : forall xs : list (string * json),
             (fix each (l : list (string * json)) : list (string * string) :=
                match l with
                | [] => []
                | (k, x) :: t => (k, iterencode dumps_kwargs (S level) x) :: each t
                end) xs
             = map (fun kv =>
                      (fst kv, iterencode dumps_kwargs (S level) (snd kv))) xs).
  { induction xs as [| [k x] xs IH]; simpl; [reflexivity | now rewrite IH]. }
  cbn [iterencode]. rewrite E. reflexivity.
Qed.

Lemma iterencode_list (level : nat) (l : list json) :
  l <> [] ->
  iterencode dumps_kwargs level (JList l)
  = "[" ++ opening dumps_kwargs level
        ++ String.concat (separator dumps_kwargs level)
             (map (iterencode dumps_kwargs (S level)) l)
        ++ closing dumps_kwargs level ++ "]".
Proof.
  intros Hne. destruct l as [| x0 l]; [contradiction |].
  assert (E : forall xs : list json,
             (fix each (l : list json) : list string :=
                match l with
                | [] => []
                | x :: t => iterencode dumps_kwargs (S level) x :: each t
                end) xs
             = map (iterencode dumps_kwargs (S level)) xs).
  { induction xs as [| x xs IH]; simpl; [reflexivity | now rewrite IH]. }
  cbn [iterencode]. rewrite E. reflexivity.
Qed.

Lemma distinct_keys_list (l : list json) :
  distinct_keys (JList l) = true ->
  Forall (fun x => distinct_keys x = true) l.
Proof.
  induction l as [| x l IH]; intros H; constructor;
    simpl in H; apply andb_prop in H; destruct H as [Hx Hl].
  - exact Hx.
  - apply IH. exact Hl.
Qed.

Lemma distinct_keys_dict (items : list (string * json)) :
  distinct_keys (JDict items) = true ->
  NoDup (map fst items)
  /\ Forall (fun kv => distinct_keys (snd kv) = true) items.
Proof.
  intros H. simpl in H. apply andb_prop in H. destruct H as [Hk Hv].
  split; [now apply no_repeat_NoDup |]. clear Hk.
  induction items as [| [k x] items IH]; constructor;
    apply andb_prop in Hv; destruct Hv as [Hx Hl].
  - exact Hx.
  - apply IH. exact Hl.
Qed.

Lemma iterencode_reordered (v : json) :
  forall (v' : json) (level : nat),
    reordered v v' -> distinct_keys v = true ->
    iterencode dumps_kwargs level v = iterencode dumps_kwargs level v'.
Proof.
  induction v as [| b | z | s | l IH | items IH] using json_induction;
    intros v' level Hr Hd; inversion Hr; subst; try reflexivity.
  - (* arrays *)
    apply distinct_keys_list in Hd.
    assert (E : forall n, map (iterencode dumps_kwargs n) l
                          = map (iterencode dumps_kwargs n) l').
    { intros n. clear Hr. revert IH Hd.
      match goal with H : Forall2 reordered l l' |- _ =>
        induction H as [| x x' l l' Hx _ IHf] end; intros IH Hd.
      - reflexivity.
      - inversion IH as [| ? ? IHx IHt]; subst.
        inversion Hd as [| ? ? Hdx Hdt]; subst. simpl.
        f_equal; [exact (IHx x' n Hx Hdx) | exact (IHf IHt Hdt)]. }
    destruct l as [| x l].
    + match goal with H : Forall2 reordered [] l' |- _ => inversion H end.
      reflexivity.
    + destruct l' as [| x' l'].
      { match goal with H : Forall2 reordered (x :: l) [] |- _ =>
          inversion H end. }
      rewrite !iterencode_list by discriminate. now rewrite E.
  - (* objects *)
    apply distinct_keys_dict in Hd. destruct Hd as [Hn Hd].
    assert (E : forall n,
               map (fun kv => (fst kv, iterencode dumps_kwargs n (snd kv)))
                   items
               = map (fun kv => (fst kv, iterencode dumps_kwargs n (snd kv)))
                     moved).
    { intros n. clear Hr Hn.
      match goal with Hp : Permutation moved items' |- _ => clear Hp end.
      revert IH Hd.
      match goal with
      | H : Forall2 _ items moved |- _ =>
          induction H as [| a b items moved [Hk Hv] _ IHf]
      end; intros IH Hd.
      - reflexivity.
      - inversion IH as [| ? ? IHx IHt]; subst.
        inversion Hd as [| ? ? Hdx Hdt]; subst. simpl.
        f_equal; [| exact (IHf IHt Hdt)].
        f_equal; [exact Hk | exact (IHx (snd b) n Hv Hdx)]. }
    assert (S : forall n,
               sorted_items
                 (map (fun kv => (fst kv, iterencode dumps_kwargs n (snd kv)))
                      items)
               = sorted_items
                   (map (fun kv => (fst kv, iterencode dumps_kwargs n (snd kv)))
                        items')).
    { intros n. rewrite E. apply sorted_items_of_permutation.
      - now apply Permutation_map.
      - rewrite <- E, map_map. simpl. exact Hn. }
    destruct items as [| a items].
    + match goal with H : Forall2 _ [] moved |- _ => inversion H; subst end.
      match goal with H : Permutation [] items' |- _ =>
        apply Permutation_nil in H; subst end.
      reflexivity.
    + destruct items' as [| a' items'].
      { match goal with H : Forall2 _ (a :: items) moved |- _ =>
          inversion H; subst end.
        match goal with H : Permutation (_ :: _) [] |- _ =>
          apply Permutation_sym, Permutation_nil in H; discriminate H end. }
      rewrite !iterencode_dict by discriminate. now rewrite S.
Qed.

(** X15: the JSON that [model] and [results] write does not depend on
    the order in which the objects of the result were filled, at any
    depth: two results that differ in that order only are written as
    the same text. *)
Theorem dumps_ignores_insertion_order (v v' : json) :
  reordered v v' ->
  distinct_keys v = true ->
  json_dumps dumps_kwargs v = json_dumps dumps_kwargs v'.
Proof.
  intros Hr Hd. unfold json_dumps. now apply iterencode_reordered.
Qed.

Lemma dumps_ignores_insertion_order_run :
  json_dumps dumps_kwargs
    (JList [JDict [("name", JStr "dam"); ("email", JNull)]])
  = json_dumps dumps_kwargs
      (JList [JDict [("email", JNull); ("name", JStr "dam")]]).
Proof.
  apply dumps_ignores_insertion_order; [| reflexivity].
  apply reordered_list. constructor; [| constructor].
  apply (reordered_dict _ [("name", JStr "dam"); ("email", JNull)]).
  - repeat constructor.
  - apply perm_swap.
Defined.

(** ** No space at the end of a line *)

Lemma trailing_space_app (a b : string) (at_end : bool) :
  trailing_space at_end (a ++ b)
  = trailing_space (line_ends b at_end) a || trailing_space at_end b.
Proof.
  induction a as [| c t IH]; [reflexivity |].
  simpl. rewrite IH. destruct t as [| d t']; simpl.
  - destruct b; simpl; now rewrite ?orb_false_r.
  - now rewrite orb_assoc.
Qed.

Lemma trailing_space_weaken (s : string) (at_end : bool) :
  trailing_space true s = false -> trailing_space at_end s = false.
Proof.
  induction s as [| c t IH]; [reflexivity |].
  simpl. intros H. apply orb_false_elim in H. destruct H as [H1 H2].
  rewrite (IH H2), orb_false_r.
  destruct (c =? " ")%char; [| reflexivity]. simpl in *.
  destruct t; [now subst; destruct at_end | exact H1].
Qed.

Lemma one_line_app (a b : string) :
  one_line (a ++ b) = one_line a && one_line b.
Proof.
  induction a as [| c t IH]; [reflexivity |].
  simpl. now rewrite IH, andb_assoc.
Qed.

Lemma one_line_no_trailing (s : string) :
  one_line s = true -> trailing_space false s = false.
Proof.
  induction s as [| c t IH]; [reflexivity |].
  simpl. intros H. apply andb_prop in H. destruct H as [_ Ht].
  rewrite (IH Ht), orb_false_r.
  destruct t as [| d t']; [apply andb_false_r |].
  simpl in Ht. apply andb_prop in Ht. destruct Ht as [Hd _].
  apply negb_true_iff in Hd. rewrite Hd. apply andb_false_r.
Qed.

Lemma spaceless_no_trailing (s : string) (at_end : bool) :
  spaceless s = true -> trailing_space at_end s = false.
Proof.
  induction s as [| c t IH]; [reflexivity |].
  simpl. intros H. apply andb_prop in H. destruct H as [Hc Ht].
  apply negb_true_iff in Hc. now rewrite Hc, (IH Ht).
Qed.

Lemma blank_no_trailing (s : string) :
  blank s = true -> trailing_space false s = false.
Proof.
  induction s as [| c t IH]; [reflexivity |].
  simpl. intros H. apply andb_prop in H. destruct H as [_ Ht].
  rewrite (IH Ht), orb_false_r.
  destruct t as [| d t']; [apply andb_false_r |].
  simpl in Ht. apply andb_prop in Ht. destruct Ht as [Hd _].
  apply Ascii.eqb_eq in Hd. subst d. apply andb_false_r.
Qed.

Lemma blank_app (a b : string) : blank (a ++ b) = blank a && blank b.
Proof.
  induction a as [| c t IH]; [reflexivity |].
  simpl. now rewrite IH, andb_assoc.
Qed.

Lemma blank_indent (n : nat) : blank (repeat_string (spaces 4) n) = true.
Proof.
  induction n as [| n IH]; [reflexivity |].
  cbn [repeat_string]. now rewrite blank_app, IH.
Qed.

Lemma after_line_feed (r : string) :
  blank r = true ->
  trailing_space false (String "010" r) = false
  /\ trailing_space false (String "," (String "010" r)) = false.
Proof.
  intros H. apply blank_no_trailing in H. split; simpl; exact H.
Qed.

(** The three texts the encoder puts around the items: each starts a
    new line or follows a comma, and none leaves a space before a line
    feed when something that is no line feed follows it. *)
Lemma layout_no_trailing (level : nat) :
  trailing_space false (opening dumps_kwargs level) = false
  /\ trailing_space false (separator dumps_kwargs level) = false
  /\ trailing_space false (closing dumps_kwargs level) = false
  /\ line_ends (separator dumps_kwargs level) true = false
  /\ line_ends (closing dumps_kwargs level ++ "}") true = true
  /\ line_ends (closing dumps_kwargs level ++ "]") true = true.
Proof.
  change (opening dumps_kwargs level)
    with (String "010" (repeat_string (spaces 4) (S level))).
  change (separator dumps_kwargs level)
    with (String "," (String "010" (repeat_string (spaces 4) (S level)))).
  change (closing dumps_kwargs level)
    with (String "010" (repeat_string (spaces 4) level)).
  split; [apply after_line_feed, blank_indent |].
  split; [apply after_line_feed, blank_indent |].
  split; [apply after_line_feed, blank_indent |].
  repeat split.
Qed.

Lemma digits_spaceless (d : Decimal.uint) :
  spaceless (NilEmpty.string_of_uint d) = true.
Proof. induction d; simpl; auto. Qed.

Lemma tidy_repr_int (z : Z) : tidy (repr_int z).
Proof.
  unfold repr_int, NilZero.string_of_int, NilZero.string_of_uint.
  destruct (Z.to_int z) as [d | d]; split.
  - destruct d; reflexivity.
  - apply spaceless_no_trailing. destruct d; try reflexivity;
      apply (digits_spaceless (_ d)).
  - reflexivity.
  - apply spaceless_no_trailing. simpl. destruct d; try reflexivity;
      apply (digits_spaceless (_ d)).
Qed.

Lemma escape_char_one_line (c : ascii) : one_line (escape_char c) = true.
Proof. destruct c as [[] [] [] [] [] [] [] []]; reflexivity. Qed.

Lemma escaped_one_line (s : string) :
  one_line (concat_map escape_char s) = true.
Proof.
  induction s as [| c t IH]; [reflexivity |].
  simpl. now rewrite one_line_app, escape_char_one_line, IH.
Qed.

Lemma tidy_encode_string (s : string) : tidy (encode_string s).
Proof.
  unfold encode_string.
  change (DQ ++ concat_map escape_char s ++ DQ)
    with (String quote_char (concat_map escape_char s ++ DQ)).
  split; [reflexivity |].
  cbn [trailing_space]. change ((quote_char =? " ")%char) with false.
  cbn [andb orb]. rewrite trailing_space_app.
  change (line_ends DQ true) with false.
  now rewrite (one_line_no_trailing _ (escaped_one_line s)).
Qed.

Lemma tidy_starts (a b : string) (at_end : bool) :
  tidy a -> line_ends (a ++ b) at_end = false.
Proof.
  intros [H _]. destruct a as [| c t]; [discriminate H | exact H].
Qed.

Lemma tidy_item (k val : string) :
  tidy val -> tidy (encode_item dumps_kwargs (k, val)).
Proof.
  intros [Hs Ht]. unfold encode_item. cbn [fst snd key_separator dumps_kwargs].
  destruct (tidy_encode_string k) as [Ks Kt]. split.
  - now apply tidy_starts.
  - rewrite trailing_space_app, (trailing_space_weaken _ _ Kt).
    rewrite trailing_space_app, Ht.
    destruct val as [| d v]; [discriminate Hs |].
    simpl in Hs. simpl. now rewrite Hs.
Qed.

Lemma tidy_concat (level : nat) (parts : list string) :
  parts <> [] -> Forall tidy parts ->
  tidy (String.concat (separator dumps_kwargs level) parts).
Proof.
  destruct (layout_no_trailing level) as (_ & Hsep & _ & Hstart & _).
  intros Hne H. induction H as [| x parts Hx Hparts IH]; [contradiction |].
  destruct parts as [| y parts]; [exact Hx |].
  specialize (IH ltac:(discriminate)).
  change (String.concat (separator dumps_kwargs level) (x :: y :: parts))
    with (x ++ separator dumps_kwargs level
            ++ String.concat (separator dumps_kwargs level) (y :: parts)).
  split.
  - now apply tidy_starts.
  - rewrite trailing_space_app.
    assert (E : line_ends
                  (separator dumps_kwargs level
                   ++ String.concat (separator dumps_kwargs level) (y :: parts))
                  true = false).
    { destruct (separator dumps_kwargs level); [discriminate Hstart |].
      exact Hstart. }
    rewrite E, (trailing_space_weaken _ _ (proj2 Hx)).
    rewrite trailing_space_app, (proj1 IH), Hsep. exact (proj2 IH).
Qed.

Lemma tidy_brackets (level : nat) (left right body : string) :
  spaceless left = true -> left <> "" -> line_ends left true = false ->
  (right = "}" \/ right = "]") ->
  tidy body ->
  tidy (left ++ opening dumps_kwargs level ++ body
             ++ closing dumps_kwargs level ++ right).
Proof.
  destruct (layout_no_trailing level) as (Hopen & _ & Hclose & _ & Hb & Hk).
  intros Hl Hne Hstart Hright [Bs Bt]. split.
  - destruct left; [contradiction | exact Hstart].
  - rewrite trailing_space_app, (spaceless_no_trailing _ _ Hl).
    rewrite trailing_space_app.
    rewrite (tidy_starts body _ true (conj Bs Bt)), Hopen.
    rewrite trailing_space_app.
    assert (E : line_ends (closing dumps_kwargs level ++ right) true = true).
    { destruct Hright as [-> | ->]; assumption. }
    rewrite E, Bt, trailing_space_app.
    assert (R : line_ends right true = false /\ trailing_space true right = false).
    { destruct Hright as [-> | ->]; split; reflexivity. }
    now rewrite (proj1 R), Hclose, (proj2 R).
Qed.

Lemma iterencode_tidy (v : json) :
  forall level : nat, tidy (iterencode dumps_kwargs level v).
Proof.
  induction v as [| b | z | s | l IH | items IH] using json_induction;
    intros level.
  - split; reflexivity.
  - destruct b; split; reflexivity.
  - apply tidy_repr_int.
  - apply tidy_encode_string.
  - destruct l as [| x l]; [split; reflexivity |].
    rewrite iterencode_list by discriminate.
    apply (tidy_brackets level "[" "]"); try reflexivity;
      [discriminate | now right |].
    apply tidy_concat; [discriminate |].
    apply Forall_map. eapply Forall_impl; [| exact IH].
    intros a Ha. apply Ha.
  - destruct items as [| a items]; [split; reflexivity |].
    rewrite iterencode_dict by discriminate.
    apply (tidy_brackets level "{" "}"); try reflexivity;
      [discriminate | now left |].
    apply tidy_concat.
    + intros E. apply map_eq_nil in E.
      pose proof (sorted_items_perm
                    (map (fun kv =>
                            (fst kv,
                             iterencode dumps_kwargs (S level) (snd kv)))
                         (a :: items))) as Hp.
      rewrite E in Hp. apply Permutation_sym, Permutation_nil in Hp.
      discriminate Hp.
    + apply Forall_map.
      eapply Permutation_Forall; [apply sorted_items_perm |].
      apply Forall_map. eapply Forall_impl; [| exact IH].
      intros kv Hkv. apply (tidy_item (fst kv)). apply Hkv.
Qed.

(** X16: no line of the JSON that [model] and [results] write ends in a
    space, and neither does the text: the item separator is a comma
    alone. *)
Theorem dumps_leaves_no_trailing_space (v : json) :
  trailing_space true (json_dumps dumps_kwargs v) = false.
Proof. apply (iterencode_tidy v 0). Qed.

(** With the separators of the specification a line would end in a
    space. *)
Lemma spec_separators_leave_a_trailing_space :
  trailing_space true
    (json_dumps spec_dumps_kwargs (JDict [("b", JInt 2); ("a", JInt 1)]))
  = true.
Proof. reflexivity. Qed.

(** ** Only printable characters *)

Lemma safe_app (a b : string) : safe (a ++ b) = safe a && safe b.
Proof.
  induction a as [| c t IH]; [reflexivity |].
  simpl. now rewrite IH, andb_assoc.
Qed.

Lemma safe_escape_char (c : ascii) : safe (escape_char c) = true.
Proof. destruct c as [[] [] [] [] [] [] [] []]; reflexivity. Qed.

Lemma safe_encode_string (s : string) : safe (encode_string s) = true.
Proof.
  unfold encode_string. rewrite !safe_app.
  assert (E : safe (concat_map escape_char s) = true).
  { induction s as [| c t IH]; [reflexivity |].
    simpl. now rewrite safe_app, safe_escape_char, IH. }
  now rewrite E.
Qed.

Lemma safe_digits (d : Decimal.uint) :
  safe (NilEmpty.string_of_uint d) = true.
Proof. induction d; simpl; auto. Qed.

Lemma safe_repr_int (z : Z) : safe (repr_int z) = true.
Proof.
  unfold repr_int, NilZero.string_of_int, NilZero.string_of_uint.
  destruct (Z.to_int z) as [d | d]; simpl;
    destruct d; try reflexivity; apply (safe_digits (_ d)).
Qed.

Lemma safe_blank (s : string) : blank s = true -> safe s = true.
Proof.
  induction s as [| c t IH]; [reflexivity |].
  simpl. intros H. apply andb_prop in H. destruct H as [Hc Ht].
  apply Ascii.eqb_eq in Hc. subst c. now rewrite (IH Ht).
Qed.

Lemma safe_layout (level : nat) :
  safe (opening dumps_kwargs level) = true
  /\ safe (separator dumps_kwargs level) = true
  /\ safe (closing dumps_kwargs level) = true.
Proof.
  change (opening dumps_kwargs level)
    with (String "010" (repeat_string (spaces 4) (S level))).
  change (separator dumps_kwargs level)
    with (String "," (String "010" (repeat_string (spaces 4) (S level)))).
  change (closing dumps_kwargs level)
    with (String "010" (repeat_string (spaces 4) level)).
  cbn [safe].
  rewrite !(safe_blank _ (blank_indent _)). repeat split.
Qed.

Lemma safe_concat (sep : string) (parts : list string) :
  safe sep = true -> Forall (fun s => safe s = true) parts ->
  safe (String.concat sep parts) = true.
Proof.
  intros Hsep H. induction H as [| x parts Hx _ IH]; [reflexivity |].
  destruct parts as [| y parts]; [exact Hx |].
  change (String.concat sep (x :: y :: parts))
    with (x ++ sep ++ String.concat sep (y :: parts)).
  now rewrite !safe_app, Hx, Hsep, IH.
Qed.

Lemma iterencode_safe (v : json) :
  forall level : nat, safe (iterencode dumps_kwargs level v) = true.
Proof.
  induction v as [| b | z | s | l IH | items IH] using json_induction;
    intros level.
  - reflexivity.
  - destruct b; reflexivity.
  - apply safe_repr_int.
  - apply safe_encode_string.
  - destruct l as [| x l]; [reflexivity |].
    rewrite iterencode_list by discriminate.
    destruct (safe_layout level) as (Ho & Hs & Hc).
    rewrite !safe_app, Ho, Hc, safe_concat; [reflexivity | exact Hs |].
    apply Forall_map. eapply Forall_impl; [| exact IH].
    intros a Ha. apply Ha.
  - destruct items as [| a items]; [reflexivity |].
    rewrite iterencode_dict by discriminate.
    destruct (safe_layout level) as (Ho & Hs & Hc).
    rewrite !safe_app, Ho, Hc, safe_concat; [reflexivity | exact Hs |].
    apply Forall_map.
    eapply Permutation_Forall; [apply sorted_items_perm |].
    apply Forall_map. eapply Forall_impl; [| exact IH].
    intros kv Hkv. unfold encode_item.
    cbn [fst snd key_separator dumps_kwargs].
    now rewrite !safe_app, safe_encode_string, Hkv.
Qed.

(** X17: the JSON that [model] and [results] write holds printable
    ASCII characters and line feeds only: a control character in a
    string of the result is written as an escape and does not reach the
    terminal as it is. *)
Theorem dumps_writes_printable_characters_only (v : json) :
  safe (json_dumps dumps_kwargs v) = true.
Proof. apply (iterencode_safe v 0). Qed.

(** ** [os.path.basename] in the label of a progress bar *)

Lemma contains_char_app (c : ascii) (a b : string) :
  contains_char c (a ++ b) = contains_char c a || contains_char c b.
Proof.
  induction a as [| d t IH]; [reflexivity |].
  simpl. now rewrite IH, orb_assoc.
Qed.

(** X18: the label of the bar of a file names the file without its
    directories: for a path [dir/file] it is [Uploading file...], and a
    path without a slash is named as it is. *)
Theorem upload_label_names_the_file (dir name : string) :
  contains_char "/" name = false ->
  basename (dir ++ "/" ++ name) = name /\ basename name = name.
Proof.
  intros Hn. split.
  - induction dir as [| c dir IH].
    + simpl. rewrite Hn. reflexivity.
    + change ((String c dir ++ "/" ++ name))
        with (String c (dir ++ "/" ++ name)).
      assert (E : contains_char "/" (dir ++ "/" ++ name) = true).
      { rewrite contains_char_app. simpl. apply orb_true_r. }
      cbn [basename contains_char]. rewrite E.
      rewrite orb_true_r, andb_false_r. exact IH.
  - destruct name as [| c name]; [reflexivity |].
    cbn [basename]. now rewrite Hn.
Qed.

Lemma upload_label_names_the_file_run :
  snd (upload_step (files_of_size 10) obliging_client "runs/in/a.asc" [])
  = [EBarOpen 10 "Uploading a.asc..."; upload_file "runs/in/a.asc";
     EBarClose]
  /\ basename ("runs/in" ++ "/" ++ "a.asc") = "a.asc".
Proof.
  split; [reflexivity |].
  exact (proj1 (upload_label_names_the_file "runs/in" "a.asc" eq_refl)).
Defined.
